(** * The green web domain checker ([apps/greencheck/domain_check.py])

    A shallow embedding of [GreenDomainChecker]: resolution of a domain to an
    address, the look-up of the address in the registered IP ranges and in the
    registered autonomous system numbers, and the helpers that split a batch of
    domains into green and grey ones. *)

From stdpp Require Import base decidable option list strings pretty.
From Stdlib Require Import ZArith Lia Ascii.

Open Scope string_scope.
Open Scope list_scope.
Open Scope Z_scope.

(** ** Exceptions, outcomes and the logger *)

(** The exception classes that the checker meets. [gaierror] is what
    [socket.gethostbyname] raises for a host it cannot resolve,
    [IPDefinedError] what [ipwhois] raises for a private or reserved address,
    [ValueError] what the ORM raises when a value given for the integer column
    [asn] is not an integer literal, and [OtherException] stands for every
    other subclass of [Exception], by the name of its class. *)
Inductive exn : Type :=
  | gaierror
  | IPDefinedError
  | ValueError
  | OtherException (cls : string).

#[global] Instance exn_eq_dec : EqDecision exn.
Proof. solve_decision. Defined.

Inductive outcome (A : Type) : Type :=
  | Returned (a : A)
  | Raised (e : exn).
Arguments Returned {A} a.
Arguments Raised {A} e.

(** The module-level [logger]: the records written so far, oldest first. *)
Definition Log : Type := list exn.

(** A computation of the checker: it reads and extends the log, and it either
    returns a value or raises. *)
Definition M (A : Type) : Type := Log -> outcome A * Log.

Definition ret {A} (a : A) : M A := fun log => (Returned a, log).

Definition raise {A} (e : exn) : M A := fun log => (Raised e, log).

Definition bind {A B} (m : M A) (k : A -> M B) : M B :=
  fun log =>
    match m log with
    | (Returned a, log') => k a log'
    | (Raised e, log') => (Raised e, log')
    end.

(** [lift o] is a call into the environment whose outcome is [o]. *)
Definition lift {A} (o : outcome A) : M A := fun log => (o, log).

(** [logger.exception(err)] *)
Definition logger_exception (err : exn) : M unit :=
  fun log => (Returned tt, log ++ [err]).

(** [try: m  except IPDefinedError: h1  except Exception as err: h2 err] *)
Definition try_except {A} (m : M A) (h1 : M A) (h2 : exn -> M A) : M A :=
  fun log =>
    match m log with
    | (Returned a, log') => (Returned a, log')
    | (Raised IPDefinedError, log') => h1 log'
    | (Raised err, log') => h2 err log'
    end.

Notation "'let*' x ':=' m 'in' k" := (bind m (fun x => k))
  (at level 10, x name, m at level 100, k at level 200, only parsing).

(** ** Python values and built-ins used by the checker *)

(** What a method that ends in [return False], in [return qs.first()] or by
    falling off its end hands back. Only a model instance is true in a
    condition; [False] and [None] are not. *)
Inductive pyresult (A : Type) : Type :=
  | PyFalse
  | PyNone
  | PyObj (a : A).
Arguments PyFalse {A}.
Arguments PyNone {A}.
Arguments PyObj {A} a.

(** [qs.first()]: the first row of the query set, or [None]. *)
Definition first {A} (qs : list A) : option A := head qs.

Definition of_option {A} (o : option A) : pyresult A :=
  match o with
  | Some a => PyObj a
  | None => PyNone
  end.

(** [s.split(sep)] for a separator of one character: every occurrence of the
    separator ends a field, so that adjacent separators give empty fields and
    the empty string gives one empty field. *)
Fixpoint split (sep : ascii) (s : string) : list string :=
  match s with
  | EmptyString => [EmptyString]
  | String c rest =>
      if decide (c = sep) then EmptyString :: split sep rest
      else match split sep rest with
           | field :: fields => String c field :: fields
           | [] => [String c EmptyString]
           end
  end.

(** ASCII white space as [str.isspace] and [str.split()] see it: tab, line
    feed, vertical tab, form feed, carriage return, the four separators
    28-31 and the space. *)
Definition isspace (c : ascii) : bool :=
  let n := N_of_ascii c in
  ((9 <=? n) && (n <=? 13) || (28 <=? n) && (n <=? 32))%N.

(** The white space that [int] skips around a literal: tab, line feed,
    vertical tab, form feed, carriage return and the space; the separators
    28-31 are not among it. *)
Definition Py_ISSPACE (c : ascii) : bool :=
  let n := N_of_ascii c in
  ((9 <=? n) && (n <=? 13) || (n =? 32))%N.

Definition isdigit (c : ascii) : bool :=
  let n := N_of_ascii c in ((48 <=? n) && (n <=? 57))%N.

Definition digit_value (c : ascii) : Z := Z.of_N (N_of_ascii c) - 48.

(** The string without the white space that [int] skips at its start. *)
Fixpoint skip_leading_space (s : string) : string :=
  match s with
  | String c rest => if Py_ISSPACE c then skip_leading_space rest else s
  | EmptyString => EmptyString
  end.

(** The string without the white space that [int] skips at its end. *)
Fixpoint skip_trailing_space (s : string) : string :=
  match s with
  | String c rest =>
      match skip_trailing_space rest with
      | EmptyString =>
          if Py_ISSPACE c then EmptyString else String c EmptyString
      | rest' => String c rest'
      end
  | EmptyString => EmptyString
  end.

(** The digits of a decimal literal; one underscore may stand between two
    digits. [after_digit] tells whether the previous character was a digit. *)
Fixpoint int_digits (acc : Z) (after_digit : bool) (s : string) : option Z :=
  match s with
  | EmptyString => if after_digit then Some acc else None
  | String c rest =>
      if isdigit c then int_digits (10 * acc + digit_value c) true rest
      else if decide (c = "_"%char) then
        if after_digit then int_digits acc false rest else None
      else None
  end.

(** [int(s)] for a string [s] of ASCII characters: [None] stands for
    [ValueError]. The limit that later interpreters put on the number of
    digits of a literal (4300 unless configured) is not part of it. *)
Definition int (s : string) : option Z :=
  match skip_leading_space (skip_trailing_space s) with
  | String "-" body => Z.opp <$> int_digits 0 false body
  | String "+" body => int_digits 0 false body
  | body => int_digits 0 false body
  end.

(** [x in xs] on a list of strings: a scan with [==]. *)
Fixpoint contains (xs : list string) (x : string) : bool :=
  match xs with
  | [] => false
  | y :: ys => if String.eqb x y then true else contains ys x
  end.

(** ** Addresses *)

(** An [ipaddress.IPv4Address], by its integer value. [socket.gethostbyname]
    answers with IPv4 addresses only. *)
Definition IPv4Address : Type := Z.

(** [str(ip_address)]: the four octets in decimal, most significant first. *)
Definition str (ip : IPv4Address) : string :=
  let octet (k : Z) := pretty (Z.land (Z.shiftr ip (8 * k)) 255) in
  octet 3 +:+ "." +:+ octet 2 +:+ "." +:+ octet 1 +:+ "." +:+ octet 0.

(** The address with the given octets, as in [a.b.c.d]. *)
Definition ipv4 (a b c d : Z) : IPv4Address :=
  Z.lor (Z.shiftl a 24) (Z.lor (Z.shiftl b 16) (Z.lor (Z.shiftl c 8) d)).

(** ** The data model *)

Module Hostingprovider.
Record t : Type := { id : Z }.
End Hostingprovider.

(** A row of the table of green IP ranges; both bounds belong to the range. *)
Module GreencheckIp.
Record t : Type := {
  id : Z;
  ip_start : IPv4Address;
  ip_end : IPv4Address;
  hostingprovider : Hostingprovider.t
}.

(** The size of the range, [ip_end - ip_start]. *)
Definition span (r : t) : Z := ip_end r - ip_start r.
End GreencheckIp.

(** A row of the table of green autonomous system numbers. The API's
    [destroy] keeps the row and clears [active]. *)
Module GreencheckASN.
Record t : Type := {
  id : Z;
  asn : Z;
  hostingprovider : Hostingprovider.t;
  active : bool
}.

Definition set_active (f : t -> bool) (e : t) : t :=
  {| id := id e; asn := asn e; hostingprovider := hostingprovider e;
     active := f e |}.
End GreencheckASN.

(** [legacy_workers.SiteCheck], with the fields that the checker fills in. *)
Module SiteCheck.
Record t : Type := {
  url : string;
  ip : string;
  data : bool;
  green : bool;
  hosting_provider_id : option Z;
  match_type : option string;
  match_ip_range : option Z;
  cached : bool;
  checked_at : Z
}.
End SiteCheck.

Module GreenDomain.
(** Modelled from the spec: the model class [GreenDomain] of [models.py],
    which is not part of the sources at hand. The spec gives it as a
    projection of a site check: the domain, the green flag and the
    reference to the provider, if any. *)
Record t : Type := {
  url : string;
  green : bool;
  hosted_by_id : option Z
}.

(** Modelled from the spec: the class method [GreenDomain.grey_result] of
    [models.py], a grey placeholder synthesized for the domain. *)
Definition grey_result (domain : string) : t :=
  {| url := domain; green := false; hosted_by_id := None |}.

(** Modelled from the spec: the class method [GreenDomain.from_sitecheck]
    of [models.py], the summary projected from a site check. *)
Definition from_sitecheck (sitecheck : SiteCheck.t) : t :=
  {| url := SiteCheck.url sitecheck;
     green := SiteCheck.green sitecheck;
     hosted_by_id := SiteCheck.hosting_provider_id sitecheck |}.
End GreenDomain.

(** What the look-up service reports under the key ["asn"]: an integer, or
    a string, which the checker takes for several numbers separated by
    spaces. *)
Inductive asn_result : Type :=
  | AsnInt (n : Z)
  | AsnStr (s : string).

(** The collaborators of the checker. The two tables list their rows in the
    order in which the default manager yields them to [first()], which is the
    order of the primary keys unless the model declares another one. *)
Record Env : Type := {
  (** [ipaddress.ip_address(socket.gethostbyname(domain))]: the address that
      the dotted text returned by the resolver denotes, or the resolver's
      exception. *)
  gethostbyname : string -> outcome IPv4Address;
  (** [IPASN(Net(ip_address)).lookup()["asn"]] *)
  ipasn_lookup : IPv4Address -> outcome asn_result;
  (** [GreencheckIp.objects] *)
  GreencheckIp_objects : list GreencheckIp.t;
  (** [GreencheckASN.objects] *)
  GreencheckASN_objects : list GreencheckASN.t
}.

(** ** The checker *)

Section GreenDomainChecker.
Variable env : Env.

(** [timezone.now()] at the time of the check. *)
Variable now : Z.

Definition asn_from_ip (ip_address : IPv4Address) : M asn_result :=
  lift (ipasn_lookup env ip_address).

Definition convert_domain_to_ip (domain : string) : M IPv4Address :=
  lift (gethostbyname env domain).

Definition green_sitecheck_by_ip_range (domain : string)
    (ip_address : IPv4Address) (ip_match : GreencheckIp.t) : SiteCheck.t :=
  {| SiteCheck.url := domain;
     SiteCheck.ip := str ip_address;
     SiteCheck.data := true;
     SiteCheck.green := true;
     SiteCheck.hosting_provider_id :=
       Some (Hostingprovider.id (GreencheckIp.hostingprovider ip_match));
     SiteCheck.match_type := Some "ip";
     SiteCheck.match_ip_range := Some (GreencheckIp.id ip_match);
     SiteCheck.cached := false;
     SiteCheck.checked_at := now |}.

Definition green_sitecheck_by_asn (domain : string)
    (ip_address : IPv4Address) (matching_asn : GreencheckASN.t)
    : SiteCheck.t :=
  {| SiteCheck.url := domain;
     SiteCheck.ip := str ip_address;
     SiteCheck.data := true;
     SiteCheck.green := true;
     SiteCheck.hosting_provider_id :=
       Some (Hostingprovider.id (GreencheckASN.hostingprovider matching_asn));
     SiteCheck.match_type := Some "as";
     SiteCheck.match_ip_range := Some (GreencheckASN.id matching_asn);
     SiteCheck.cached := false;
     SiteCheck.checked_at := now |}.

Definition grey_sitecheck (domain : string) (ip_address : IPv4Address)
    : SiteCheck.t :=
  {| SiteCheck.url := domain;
     SiteCheck.ip := str ip_address;
     SiteCheck.data := false;
     SiteCheck.green := false;
     SiteCheck.hosting_provider_id := None;
     SiteCheck.match_type := None;
     SiteCheck.match_ip_range := None;
     SiteCheck.cached := false;
     SiteCheck.checked_at := now |}.

(** [GreencheckIp.objects.filter(ip_end__gte=ip_address,
    ip_start__lte=ip_address)] *)
Definition ip_matches (ip_address : IPv4Address) : list GreencheckIp.t :=
  filter (fun r => ip_address <= GreencheckIp.ip_end r
                   /\ GreencheckIp.ip_start r <= ip_address)
         (GreencheckIp_objects env).

Definition check_for_matching_ip_ranges (ip_address : IPv4Address)
    : option GreencheckIp.t :=
  first (ip_matches ip_address).

(** [GreencheckASN.objects.filter(asn=n)] for an integer [n]. *)
Definition asn_filter (n : Z) : list GreencheckASN.t :=
  filter (fun e => GreencheckASN.asn e = n) (GreencheckASN_objects env).

(** The loop over the candidates of a string result. The ORM turns each
    candidate into an integer with [int] when the filter is built. *)
Fixpoint first_green_asn (asns : list string)
    : M (pyresult GreencheckASN.t) :=
  match asns with
  | [] => ret PyNone
  | asn :: asns' =>
      match int asn with
      | None => raise ValueError
      | Some n =>
          let asn_match := asn_filter n in
          match asn_match with
          | _ :: _ => ret (of_option (first asn_match))
          | [] => first_green_asn asns'
          end
      end
  end.

Definition check_for_matching_asn (ip_address : IPv4Address)
    : M (pyresult GreencheckASN.t) :=
  let* looked_up :=
    try_except
      (let* asn_result := asn_from_ip ip_address in ret (Some asn_result))
      (ret None)
      (fun err => let* _ := logger_exception err in ret None) in
  match looked_up with
  | None => ret PyFalse
  | Some (AsnInt n) => ret (of_option (first (asn_filter n)))
  | Some (AsnStr s) => first_green_asn (split " " s)
  end.

Definition check_domain (domain : string) : M SiteCheck.t :=
  let* ip_address := convert_domain_to_ip domain in
  match check_for_matching_ip_ranges ip_address with
  | Some ip_match =>
      ret (green_sitecheck_by_ip_range domain ip_address ip_match)
  | None =>
      let* matching_asn := check_for_matching_asn ip_address in
      match matching_asn with
      | PyObj matching_asn =>
          ret (green_sitecheck_by_asn domain ip_address matching_asn)
      | PyFalse | PyNone => ret (grey_sitecheck domain ip_address)
      end
  end.

Definition perform_full_lookup (domain : string) : M GreenDomain.t :=
  let* res := check_domain domain in
  if negb (SiteCheck.green res)
  then ret (GreenDomain.grey_result (SiteCheck.url res))
  else ret (GreenDomain.from_sitecheck res).

End GreenDomainChecker.

(** [grey_urls_only]: the comprehension scans [urls_list] and keeps a url
    when [url not in green_list]. *)
Definition grey_urls_only (urls_list : list string)
    (queryset : list GreenDomain.t) : list string :=
  let green_list := map GreenDomain.url queryset in
  (fix comprehension (urls : list string) : list string :=
     match urls with
     | [] => []
     | url :: urls' =>
         if negb (contains green_list url) then url :: comprehension urls'
         else comprehension urls'
     end) urls_list.

(** [build_green_greylist]: the loop appends one grey result per domain to
    [grey_domains], which is then put after a copy of [green_list]. *)
Definition build_green_greylist (grey_list : list string)
    (green_list : list GreenDomain.t) : list GreenDomain.t :=
  let grey_domains :=
    fold_left (fun grey_domains domain =>
                 grey_domains ++ [GreenDomain.grey_result domain])
              grey_list [] in
  let evaluated_green_queryset := green_list in
  evaluated_green_queryset ++ grey_domains.

(** * Notions of the specification and sample registries *)

(** [contains_ip r ip]: the address lies between the bounds of the range. *)
Definition contains_ip (r : GreencheckIp.t) (ip : IPv4Address) : Prop :=
  GreencheckIp.ip_start r <= ip <= GreencheckIp.ip_end r.

(** Two overlapping ranges, the wider one registered first. *)
Definition wide_range : GreencheckIp.t :=
  {| GreencheckIp.id := 1;
     GreencheckIp.ip_start := ipv4 10 0 0 0;
     GreencheckIp.ip_end := ipv4 10 255 255 255;
     GreencheckIp.hostingprovider := {| Hostingprovider.id := 7 |} |}.

Definition narrow_range : GreencheckIp.t :=
  {| GreencheckIp.id := 2;
     GreencheckIp.ip_start := ipv4 10 0 0 0;
     GreencheckIp.ip_end := ipv4 10 0 0 255;
     GreencheckIp.hostingprovider := {| Hostingprovider.id := 8 |} |}.

(** Every host resolves to 10.0.0.5, which both ranges hold. *)
Definition overlapping_env : Env :=
  {| gethostbyname := fun _ => Returned (ipv4 10 0 0 5);
     ipasn_lookup := fun _ => Raised IPDefinedError;
     GreencheckIp_objects := [wide_range; narrow_range];
     GreencheckASN_objects := [] |}.

(** The same environment with the [active] flags of the registered numbers
    set by [f]. *)
Definition reflag (f : GreencheckASN.t -> bool) (env : Env) : Env :=
  {| gethostbyname := gethostbyname env;
     ipasn_lookup := ipasn_lookup env;
     GreencheckIp_objects := GreencheckIp_objects env;
     GreencheckASN_objects :=
       map (GreencheckASN.set_active f) (GreencheckASN_objects env) |}.

(** [reported env ip n]: the look-up service names the number [n] for the
    address, as its integer answer or as one of the fields of its string
    answer. *)
Definition reported (env : Env) (ip : IPv4Address) (n : Z) : Prop :=
  ipasn_lookup env ip = Returned (AsnInt n)
  \/ exists s c, ipasn_lookup env ip = Returned (AsnStr s)
                 /\ c ∈ split " " s /\ int c = Some n.



(** The same number, registered and active. *)
Definition active_asn : GreencheckASN.t :=
  {| GreencheckASN.id := 1;
     GreencheckASN.asn := 12345;
     GreencheckASN.hostingprovider := {| Hostingprovider.id := 7 |};
     GreencheckASN.active := true |}.

(** The service reports 12345, registered and active. *)
Definition active_env : Env :=
  {| gethostbyname := fun _ => Returned (ipv4 93 184 216 34);
     ipasn_lookup := fun _ => Returned (AsnInt 12345);
     GreencheckIp_objects := [];
     GreencheckASN_objects := [active_asn] |}.

(** [s.split()]: the fields between runs of white space, none of them
    empty. This is the splitting that the specification words; the code
    calls [split(" ")]. *)
Fixpoint words (s : string) : string * list string :=
  match s with
  | EmptyString => (EmptyString, [])
  | String c rest =>
      let (w, ws) := words rest in
      if isspace c
      then (EmptyString, match w with EmptyString => ws | _ => w :: ws end)
      else (String c w, ws)
  end.

(** [s.split()], from the fields that [words] gathers. *)
Definition split_whitespace (s : string) : list string :=
  let (w, ws) := words s in
  match w with EmptyString => ws | _ => w :: ws end.

(** The match that the specification words for a string answer: the row of
    the first field, split at white space, for which a number is
    registered. *)
Fixpoint spec_first_candidate (env : Env) (candidates : list string)
    : option GreencheckASN.t :=
  match candidates with
  | [] => None
  | c :: candidates' =>
      match int c ≫= (fun n => first (asn_filter env n)) with
      | Some e => Some e
      | None => spec_first_candidate env candidates'
      end
  end.

(** The number 2222, registered and active. *)
Definition asn_2222 : GreencheckASN.t :=
  {| GreencheckASN.id := 1;
     GreencheckASN.asn := 2222;
     GreencheckASN.hostingprovider := {| Hostingprovider.id := 7 |};
     GreencheckASN.active := true |}.

(** Only the number 2222 is registered; the service answers with [answer]. *)
Definition multi_asn_env (answer : string) : Env :=
  {| gethostbyname := fun _ => Returned (ipv4 93 184 216 34);
     ipasn_lookup := fun _ => Returned (AsnStr answer);
     GreencheckIp_objects := [];
     GreencheckASN_objects := [asn_2222] |}.

(** The two numbers separated by a tabulation. *)
Definition tab_separated : string := "1111" +:+ String "009" "2222".

(** The loopback address, in no registered range; the look-up service
    refuses it. *)
Definition loopback_env : Env :=
  {| gethostbyname := fun _ => Returned (ipv4 127 0 0 1);
     ipasn_lookup := fun _ => Raised IPDefinedError;
     GreencheckIp_objects := [narrow_range];
     GreencheckASN_objects := [active_asn] |}.


(** The resolver and the registries of [active_env]; the look-up service is
    out of reach. *)
Definition active_down_env : Env :=
  {| gethostbyname := fun _ => Returned (ipv4 93 184 216 34);
     ipasn_lookup := fun _ => Raised (OtherException "ASNLookupError");
     GreencheckIp_objects := [];
     GreencheckASN_objects := [active_asn] |}.

(** The resolver and the registries of [active_env]; the look-up service
    answers for the one address as there and refuses every other one. *)
Definition active_elsewhere_env : Env :=
  {| gethostbyname := fun _ => Returned (ipv4 93 184 216 34);
     ipasn_lookup := fun ip =>
       if decide (ip = ipv4 93 184 216 34) then Returned (AsnInt 12345)
       else Raised IPDefinedError;
     GreencheckIp_objects := [];
     GreencheckASN_objects := [active_asn] |}.

(** An answer on which [int] stands for Python's [int] in every respect:
    ASCII characters only, as [str.isascii] tells, and no longer than the
    number of digits that an interpreter with a limit accepts. *)
Definition ascii_answer (s : string) : Prop :=
  Forall (fun c => (N_of_ascii c < 128)%N) (String.list_ascii_of_string s)
  /\ (String.length s <= 4300)%nat.

(** No host resolves. *)
Definition unresolved_env : Env :=
  {| gethostbyname := fun _ => Raised gaierror;
     ipasn_lookup := fun _ => Returned (AsnInt 12345);
     GreencheckIp_objects := [wide_range];
     GreencheckASN_objects := [active_asn] |}.

(** Two site checks that agree on every field but the time of the check. *)
Definition same_but_checked_at (a b : SiteCheck.t) : Prop :=
  SiteCheck.url a = SiteCheck.url b
  /\ SiteCheck.ip a = SiteCheck.ip b
  /\ SiteCheck.data a = SiteCheck.data b
  /\ SiteCheck.green a = SiteCheck.green b
  /\ SiteCheck.hosting_provider_id a = SiteCheck.hosting_provider_id b
  /\ SiteCheck.match_type a = SiteCheck.match_type b
  /\ SiteCheck.match_ip_range a = SiteCheck.match_ip_range b
  /\ SiteCheck.cached a = SiteCheck.cached b.

(** ** Further notions *)

(** [sep.join(fields)] for a separator of one character. *)
Fixpoint join (sep : ascii) (fields : list string) : string :=
  match fields with
  | [] => EmptyString
  | field :: fields' =>
      match fields' with
      | [] => field
      | _ :: _ => field +:+ String sep (join sep fields')
      end
  end.

(** No character of [s] is a space. *)
Definition no_space (s : string) : Prop :=
  " "%char ∉ String.list_ascii_of_string s.

(** The environment after further ranges were registered, which come after
    the present ones in the table. *)
Definition register_ranges (extra : list GreencheckIp.t) (env : Env) : Env :=
  {| gethostbyname := gethostbyname env;
     ipasn_lookup := ipasn_lookup env;
     GreencheckIp_objects := GreencheckIp_objects env ++ extra;
     GreencheckASN_objects := GreencheckASN_objects env |}.

(** The records that a look-up with the given outcome leaves in the log. *)
Definition logged_for (o : outcome asn_result) : list exn :=
  match o with
  | Raised err => if decide (err = IPDefinedError) then [] else [err]
  | Returned _ => []
  end.

(** A second row for the number 12345, of another provider. *)
Definition second_asn : GreencheckASN.t :=
  {| GreencheckASN.id := 2;
     GreencheckASN.asn := 12345;
     GreencheckASN.hostingprovider := {| Hostingprovider.id := 8 |};
     GreencheckASN.active := true |}.

(** The service reports 12345 as text, registered twice. *)
Definition text_asn_env : Env :=
  {| gethostbyname := fun _ => Returned (ipv4 93 184 216 34);
     ipasn_lookup := fun _ => Returned (AsnStr "12345");
     GreencheckIp_objects := [narrow_range];
     GreencheckASN_objects := [active_asn; second_asn] |}.

(** The same registry, with the number reported as an integer. *)
Definition int_asn_env : Env :=
  {| gethostbyname := fun _ => Returned (ipv4 93 184 216 34);
     ipasn_lookup := fun _ => Returned (AsnInt 12345);
     GreencheckIp_objects := [narrow_range];
     GreencheckASN_objects := [active_asn; second_asn] |}.

(** The service is out of reach, and nothing is registered for the
    address. *)
Definition service_down_env : Env :=
  {| gethostbyname := fun _ => Returned (ipv4 93 184 216 34);
     ipasn_lookup := fun _ => Raised (OtherException "ASNLookupError");
     GreencheckIp_objects := [narrow_range];
     GreencheckASN_objects := [active_asn] |}.

(** The two overlapping ranges again; the look-up service is out of reach
    and a number is registered. *)
Definition overlapping_down_env : Env :=
  {| gethostbyname := fun _ => Returned (ipv4 10 0 0 5);
     ipasn_lookup := fun _ => Raised (OtherException "ASNLookupError");
     GreencheckIp_objects := [wide_range; narrow_range];
     GreencheckASN_objects := [active_asn] |}.

(** A green summary for the url, as a query set of known green domains
    holds them. *)
Definition green_summary (url : string) : GreenDomain.t :=
  {| GreenDomain.url := url; GreenDomain.green := true;
     GreenDomain.hosted_by_id := Some 7 |}.

(** * Properties *)

(** ** Built-ins *)

Example str_loopback : str (ipv4 127 0 0 1) = "127.0.0.1".
Proof. vm_compute. reflexivity. Qed.

Example split_two : split " " "1111 2222" = ["1111"; "2222"].
Proof. reflexivity. Qed.

Example split_double : split " " "1111  2222" = ["1111"; ""; "2222"].
Proof. reflexivity. Qed.

Example int_ok : int " 2222" = Some 2222.
Proof. reflexivity. Qed.

Example int_empty : int "" = None.
Proof. reflexivity. Qed.

Example int_NA : int "NA" = None.
Proof. reflexivity. Qed.

Example int_separator : int (String "028" "2222") = None.
Proof. reflexivity. Qed.

Example int_padded : int (String "009" "2222 ") = Some 2222.
Proof. reflexivity. Qed.

(** ** Matching against the IP ranges *)

Section IpRanges.
Variable env : Env.
Implicit Types (ip : IPv4Address) (r : GreencheckIp.t).

Lemma elem_of_ip_matches ip r :
  r ∈ ip_matches env ip <-> contains_ip r ip /\ r ∈ GreencheckIp_objects env.
Proof.
  unfold ip_matches, contains_ip. rewrite list_elem_of_filter.
  intuition lia.
Qed.

(** The range found is one of the registered ranges that hold the address. *)
Lemma check_for_matching_ip_ranges_sound ip r :
  check_for_matching_ip_ranges env ip = Some r ->
  contains_ip r ip /\ r ∈ GreencheckIp_objects env.
Proof.
  unfold check_for_matching_ip_ranges, first. intros Hhd.
  apply elem_of_ip_matches. by apply head_Some_elem_of.
Qed.

(** No range is found exactly when no registered range holds the address. *)
Lemma check_for_matching_ip_ranges_None ip :
  check_for_matching_ip_ranges env ip = None <->
  forall r, r ∈ GreencheckIp_objects env -> ~ contains_ip r ip.
Proof.
  unfold check_for_matching_ip_ranges, first. rewrite head_None. split.
  - intros Hnil r Hr Hc.
    assert (r ∈ ip_matches env ip) as Hin by by apply elem_of_ip_matches.
    rewrite Hnil in Hin. by apply not_elem_of_nil in Hin.
  - intros Hnone. destruct (ip_matches env ip) as [|r l] eqn:E; [done|].
    assert (r ∈ ip_matches env ip) as Hin by (rewrite E; left).
    apply elem_of_ip_matches in Hin as [Hc Hr]. by destruct (Hnone r Hr).
Qed.

(** When a single registered range holds the address, it is the one found. *)
Lemma check_for_matching_ip_ranges_unique ip r :
  r ∈ GreencheckIp_objects env -> contains_ip r ip ->
  (forall r', r' ∈ GreencheckIp_objects env -> contains_ip r' ip -> r' = r) ->
  check_for_matching_ip_ranges env ip = Some r.
Proof.
  intros Hr Hc Huniq.
  destruct (check_for_matching_ip_ranges env ip) as [r'|] eqn:E.
  - apply check_for_matching_ip_ranges_sound in E as [Hc' Hr'].
    f_equal. by apply Huniq.
  - rewrite check_for_matching_ip_ranges_None in E. by destruct (E r Hr).
Qed.

(** The range found is the first registered range that holds the address,
    in the order of the table; its size plays no part. *)
Lemma check_for_matching_ip_ranges_first ip r :
  check_for_matching_ip_ranges env ip = Some r ->
  exists l1 l2, GreencheckIp_objects env = l1 ++ r :: l2
                /\ Forall (fun r' => ~ contains_ip r' ip) l1.
Proof.
  unfold check_for_matching_ip_ranges, first, ip_matches.
  intros (l1 & l2 & Hl & Hno)%head_filter_Some.
  exists l1, l2. split; [done|].
  eapply Forall_impl; [exact Hno|]. unfold contains_ip. simpl. lia.
Qed.
End IpRanges.

(** C1, at the input where the code departs from it: the address 10.0.0.5
    lies in the two registered ranges 10.0.0.0-10.255.255.255 (registered
    first) and 10.0.0.0-10.0.0.255; [check_for_matching_ip_ranges] returns
    the first one, although the span of the second one is smaller. *)
Theorem check_for_matching_ip_ranges_not_smallest :
  check_for_matching_ip_ranges overlapping_env (ipv4 10 0 0 5)
    = Some wide_range
  /\ contains_ip wide_range (ipv4 10 0 0 5)
  /\ contains_ip narrow_range (ipv4 10 0 0 5)
  /\ narrow_range ∈ GreencheckIp_objects overlapping_env
  /\ GreencheckIp.span narrow_range < GreencheckIp.span wide_range.
Proof.
  split; [by vm_compute|].
  split; [split; by vm_compute|].
  split; [split; by vm_compute|].
  split; [|by vm_compute].
  right. left.
Qed.

(** ** Matching against the autonomous system numbers *)

Section Asn.
Variable env : Env.
Implicit Types (ip : IPv4Address) (e : GreencheckASN.t) (log : Log).

Lemma elem_of_asn_filter n e :
  e ∈ asn_filter env n <->
  GreencheckASN.asn e = n /\ e ∈ GreencheckASN_objects env.
Proof. unfold asn_filter. by rewrite list_elem_of_filter. Qed.

Lemma first_asn_filter_sound n e :
  first (asn_filter env n) = Some e ->
  GreencheckASN.asn e = n /\ e ∈ GreencheckASN_objects env.
Proof.
  intros Hhd. apply elem_of_asn_filter. by apply head_Some_elem_of.
Qed.

Lemma asn_filter_reflag f n :
  asn_filter (reflag f env) n
    = map (GreencheckASN.set_active f) (asn_filter env n).
Proof.
  unfold asn_filter, reflag; simpl.
  induction (GreencheckASN_objects env) as [|e l IH]; [done|].
  simpl. rewrite !filter_cons. simpl.
  destruct (decide (GreencheckASN.asn e = n)); simpl; by rewrite IH.
Qed.

(** A failing look-up is answered with [False]; only a failure other than
    [IPDefinedError] is logged. *)
Lemma check_for_matching_asn_lookup_raises ip err log :
  ipasn_lookup env ip = Raised err ->
  check_for_matching_asn env ip log
    = (Returned PyFalse,
       if decide (err = IPDefinedError) then log else log ++ [err]).
Proof.
  intros Hl. unfold check_for_matching_asn, bind, try_except, asn_from_ip,
    lift, ret, logger_exception.
  rewrite Hl. by destruct err.
Qed.

Lemma check_for_matching_asn_int ip n log :
  ipasn_lookup env ip = Returned (AsnInt n) ->
  check_for_matching_asn env ip log
    = (Returned (of_option (first (asn_filter env n))), log).
Proof.
  intros Hl. unfold check_for_matching_asn, bind, try_except, asn_from_ip,
    lift, ret. by rewrite Hl.
Qed.

Lemma check_for_matching_asn_str ip s log :
  ipasn_lookup env ip = Returned (AsnStr s) ->
  check_for_matching_asn env ip log = first_green_asn env (split " " s) log.
Proof.
  intros Hl. unfold check_for_matching_asn, bind, try_except, asn_from_ip,
    lift, ret. by rewrite Hl.
Qed.

(** The loop stops at the first candidate for which a number is
    registered, provided that the candidates before it are integer
    literals. *)
Lemma first_green_asn_found pre c post n e log :
  (forall c', c' ∈ pre -> exists m, int c' = Some m /\ asn_filter env m = []) ->
  int c = Some n ->
  first (asn_filter env n) = Some e ->
  first_green_asn env (pre ++ c :: post) log = (Returned (PyObj e), log).
Proof.
  intros Hpre Hc He. induction pre as [|c' pre IH]; simpl.
  - rewrite Hc. destruct (asn_filter env n) as [|e' l] eqn:E; [done|].
    unfold ret. simpl in *. by inversion He.
  - destruct (Hpre c') as (m & -> & ->); [left|].
    apply IH. intros c1 Hc1. apply Hpre. by right.
Qed.


Lemma first_green_asn_not_found asns log :
  (forall c, c ∈ asns -> exists m, int c = Some m /\ asn_filter env m = []) ->
  first_green_asn env asns log = (Returned PyNone, log).
Proof.
  induction asns as [|c asns IH]; intros Hall; simpl; [done|].
  destruct (Hall c) as (m & -> & ->); [left|].
  apply IH. intros c1 Hc1. apply Hall. by right.
Qed.

(** What the loop returns is registered under a number that one of the
    candidates denotes, and the loop writes nothing to the log. *)
Lemma first_green_asn_sound asns log e log' :
  first_green_asn env asns log = (Returned (PyObj e), log') ->
  log' = log /\ e ∈ GreencheckASN_objects env
  /\ exists c, c ∈ asns /\ int c = Some (GreencheckASN.asn e).
Proof.
  induction asns as [|c asns IH]; simpl; [done|].
  destruct (int c) as [n|] eqn:Hc; [|done].
  destruct (asn_filter env n) as [|e' l] eqn:E.
  - intros H. destruct (IH H) as (-> & He & c' & Hc' & Hi).
    split; [done|]. split; [done|]. exists c'. split; [by right|done].
  - unfold ret; simpl. intros [= <- <-].
    assert (e' ∈ asn_filter env n) as Hin by (rewrite E; left).
    apply elem_of_asn_filter in Hin as [<- Hin].
    split; [done|]. split; [done|]. exists c. split; [left|done].
Qed.

Lemma first_green_asn_reflag f asns log :
  first_green_asn (reflag f env) asns log
    = match first_green_asn env asns log with
      | (Returned (PyObj e), log') =>
          (Returned (PyObj (GreencheckASN.set_active f e)), log')
      | other => other
      end.
Proof.
  induction asns as [|c asns IH]; simpl; [done|].
  destruct (int c) as [n|]; [|done].
  rewrite asn_filter_reflag.
  destruct (asn_filter env n) as [|e' l]; simpl; [by rewrite IH|done].
Qed.

Lemma check_for_matching_asn_sound ip log e log' :
  check_for_matching_asn env ip log = (Returned (PyObj e), log') ->
  log' = log /\ e ∈ GreencheckASN_objects env
  /\ reported env ip (GreencheckASN.asn e).
Proof.
  destruct (ipasn_lookup env ip) as [[n|s]|err] eqn:Hl.
  - rewrite (check_for_matching_asn_int _ n) by done.
    destruct (first (asn_filter env n)) as [e'|] eqn:E; simpl; [|done].
    intros [= <- <-]. apply first_asn_filter_sound in E as [<- He].
    split; [done|]. split; [done|]. by left.
  - rewrite (check_for_matching_asn_str _ s) by done. intros H.
    apply first_green_asn_sound in H as (-> & He & c & Hc & Hi).
    split; [done|]. split; [done|]. right. by exists s, c.
  - by rewrite (check_for_matching_asn_lookup_raises _ err) by done.
Qed.
End Asn.

(** The check does not read the [active] flags: with other flags it returns
    the same row, up to its flag. *)
Lemma check_for_matching_asn_reflag env f ip log :
  check_for_matching_asn (reflag f env) ip log
    = match check_for_matching_asn env ip log with
      | (Returned (PyObj e), log') =>
          (Returned (PyObj (GreencheckASN.set_active f e)), log')
      | other => other
      end.
Proof.
  destruct (ipasn_lookup env ip) as [[n|s]|err] eqn:Hl.
  - rewrite (check_for_matching_asn_int env ip n) by done.
    rewrite (check_for_matching_asn_int (reflag f env) ip n) by done.
    rewrite asn_filter_reflag. by destruct (asn_filter env n).
  - rewrite (check_for_matching_asn_str env ip s) by done.
    rewrite (check_for_matching_asn_str (reflag f env) ip s) by done.
    apply first_green_asn_reflag.
  - rewrite (check_for_matching_asn_lookup_raises env ip err) by done.
    by rewrite (check_for_matching_asn_lookup_raises (reflag f env) ip err)
      by done.
Qed.




(** ** Candidates of a string answer *)

(** C6 fails as stated: for the answer that holds 1111 and 2222 separated by
    a tabulation, splitting at white space gives the candidates 1111 and
    2222, of which 2222 is registered; the code splits at spaces only, asks
    the registry for the whole answer as one number, and the ORM raises
    [ValueError]. *)
Lemma check_for_matching_asn_tab_separated :
  split_whitespace tab_separated = ["1111"; "2222"]
  /\ spec_first_candidate (multi_asn_env tab_separated)
       (split_whitespace tab_separated) = Some asn_2222
  /\ check_for_matching_asn (multi_asn_env tab_separated)
       (ipv4 93 184 216 34) []
     = (Raised ValueError, []).
Proof. repeat split; reflexivity. Qed.

(** C6, amended: a string answer, of ASCII characters, is split at every
    space, and the fields are tried in their order; when the fields before
    a field [c] are integer literals of numbers that are not registered,
    and [c] is the literal of a registered number, the check returns the
    first row registered for the number of [c]. *)
Theorem check_for_matching_asn_first_candidate
    (env : Env) (ip : IPv4Address) (s : string) (pre post : list string)
    (c : string) (n : Z) (e : GreencheckASN.t) (log : Log) :
  ipasn_lookup env ip = Returned (AsnStr s) ->
  ascii_answer s ->
  split " " s = pre ++ c :: post ->
  (forall c', c' ∈ pre ->
     exists m, int c' = Some m /\ asn_filter env m = []) ->
  int c = Some n ->
  first (asn_filter env n) = Some e ->
  check_for_matching_asn env ip log = (Returned (PyObj e), log).
Proof.
  intros Hl _ Hs Hpre Hc He.
  rewrite (check_for_matching_asn_str env ip s) by done.
  rewrite Hs. by apply first_green_asn_found with n.
Qed.

Lemma check_for_matching_asn_first_candidate_witness :
  check_for_matching_asn (multi_asn_env "1111 2222") (ipv4 93 184 216 34) []
    = (Returned (PyObj asn_2222), []).
Proof.
  apply (check_for_matching_asn_first_candidate
           (multi_asn_env "1111 2222") (ipv4 93 184 216 34) "1111 2222"
           ["1111"] [] "2222" 2222 asn_2222 []).
  - reflexivity.
  - split; [apply (bool_decide_unpack _); by vm_compute | simpl; lia].
  - reflexivity.
  - intros c' Hc'. apply list_elem_of_singleton in Hc' as ->.
    exists 1111. split; reflexivity.
  - reflexivity.
  - reflexivity.
Defined.

(** ** Checking a domain *)

Section CheckDomain.
Variable env : Env.
Implicit Types (now : Z) (domain : string) (ip : IPv4Address) (log : Log).

(** The run of [check_domain], step by step. *)
Lemma check_domain_unfold now domain log :
  check_domain env now domain log
    = match gethostbyname env domain with
      | Raised err => (Raised err, log)
      | Returned ip =>
          match check_for_matching_ip_ranges env ip with
          | Some ip_match =>
              (Returned (green_sitecheck_by_ip_range now domain ip ip_match),
               log)
          | None =>
              match check_for_matching_asn env ip log with
              | (Returned (PyObj a), log') =>
                  (Returned (green_sitecheck_by_asn now domain ip a), log')
              | (Returned _, log') =>
                  (Returned (grey_sitecheck now domain ip), log')
              | (Raised err, log') => (Raised err, log')
              end
          end
      end.
Proof.
  unfold check_domain, bind, convert_domain_to_ip, lift, ret.
  destruct (gethostbyname env domain) as [ip|err]; [|done].
  destruct (check_for_matching_ip_ranges env ip); [done|].
  by destruct (check_for_matching_asn env ip log) as [[[| |a]|err] log'].
Qed.

(** A site check that is returned was built by one of the three
    constructors, for the address that the domain resolves to. *)
Lemma check_domain_returned now domain log res log' :
  check_domain env now domain log = (Returned res, log') ->
  exists ip, gethostbyname env domain = Returned ip
  /\ ((exists r, res = green_sitecheck_by_ip_range now domain ip r)
      \/ (exists a, res = green_sitecheck_by_asn now domain ip a)
      \/ res = grey_sitecheck now domain ip).
Proof.
  rewrite check_domain_unfold.
  destruct (gethostbyname env domain) as [ip|err]; [|done].
  intros H. exists ip. split; [done|].
  destruct (check_for_matching_ip_ranges env ip) as [r|].
  - left. exists r. by inversion H.
  - destruct (check_for_matching_asn env ip log) as [[[| |a]|err] l];
      inversion H; eauto.
Qed.

(** The loop over the candidates leaves the log as it is. *)
Lemma first_green_asn_log asns log :
  first_green_asn env asns log = (fst (first_green_asn env asns []), log).
Proof.
  induction asns as [|c asns IH]; simpl; [done|].
  destruct (int c) as [n|]; [|done].
  by destruct (asn_filter env n).
Qed.

(** What [check_for_matching_asn] returns or raises does not depend on the
    log. *)
Lemma check_for_matching_asn_outcome ip log1 log2 :
  fst (check_for_matching_asn env ip log1)
    = fst (check_for_matching_asn env ip log2).
Proof.
  destruct (ipasn_lookup env ip) as [[n|s]|err] eqn:Hl.
  - by rewrite !(check_for_matching_asn_int env ip n) by done.
  - rewrite !(check_for_matching_asn_str env ip s) by done.
    by rewrite (first_green_asn_log _ log1), (first_green_asn_log _ log2).
  - by rewrite !(check_for_matching_asn_lookup_raises env ip err) by done.
Qed.
End CheckDomain.

(** What [check_for_matching_asn] returns or raises depends on the
    environment only through the answer of the look-up service for the
    address and through the table of the numbers. *)
Lemma check_for_matching_asn_ext env1 env2 ip log1 log2 :
  ipasn_lookup env1 ip = ipasn_lookup env2 ip ->
  GreencheckASN_objects env1 = GreencheckASN_objects env2 ->
  fst (check_for_matching_asn env1 ip log1)
    = fst (check_for_matching_asn env2 ip log2).
Proof.
  intros Hl Ht.
  assert (forall n, asn_filter env1 n = asn_filter env2 n) as Hf
    by (intros n; unfold asn_filter; by rewrite Ht).
  destruct (ipasn_lookup env2 ip) as [[n|s]|err] eqn:Hl2.
  - rewrite (check_for_matching_asn_int env1 ip n) by done.
    rewrite (check_for_matching_asn_int env2 ip n) by done.
    simpl. by rewrite Hf.
  - rewrite (check_for_matching_asn_str env1 ip s) by done.
    rewrite (check_for_matching_asn_str env2 ip s) by done.
    rewrite (first_green_asn_log env1 _ log1).
    rewrite (first_green_asn_log env2 _ log2). simpl. f_equal.
    induction (split " " s) as [|c asns IH]; simpl; [done|].
    destruct (int c) as [n|]; [|done]. rewrite Hf.
    by destruct (asn_filter env2 n).
  - rewrite (check_for_matching_asn_lookup_raises env1 ip err) by done.
    by rewrite (check_for_matching_asn_lookup_raises env2 ip err) by done.
Qed.



(** The look-up service is out of reach: the failure is logged and the
    site check is grey. *)
Example check_domain_service_down :
  check_domain
    {| gethostbyname := fun _ => Returned (ipv4 93 184 216 34);
       ipasn_lookup := fun _ => Raised (OtherException "ASNLookupError");
       GreencheckIp_objects := [narrow_range];
       GreencheckASN_objects := [active_asn] |}
    1600000000 "example.org" []
  = (Returned (grey_sitecheck 1600000000 "example.org" (ipv4 93 184 216 34)),
     [OtherException "ASNLookupError"]).
Proof. reflexivity. Qed.


(** C4: when the resolver raises for the host, [check_domain] raises the
    same exception to its caller, and so does [perform_full_lookup]; no site
    check is returned. *)
Theorem check_domain_resolution_error
    (env : Env) (now : Z) (domain : string) (err : exn) (log : Log) :
  gethostbyname env domain = Raised err ->
  check_domain env now domain log = (Raised err, log)
  /\ perform_full_lookup env now domain log = (Raised err, log)
  /\ forall res log', check_domain env now domain log <> (Returned res, log').
Proof.
  intros Hr.
  assert (check_domain env now domain log = (Raised err, log)) as Hc
    by by rewrite check_domain_unfold, Hr.
  split; [done|]. split.
  - unfold perform_full_lookup, bind. by rewrite Hc.
  - intros res log'. by rewrite Hc.
Qed.

Lemma check_domain_resolution_error_witness :
  check_domain unresolved_env 1600000000 "no-such-host.example" []
    = (Raised gaierror, []).
Proof.
  apply (check_domain_resolution_error unresolved_env 1600000000
           "no-such-host.example" gaierror []).
  reflexivity.
Defined.

(** C5 fails as stated: the host, its resolution and the two registries
    are the same for the two calls, but the look-up service answers at the
    first call and is out of reach at the second: the first site check is
    green and the second one is grey. *)
Lemma check_domain_lookup_changes :
  gethostbyname active_env "example.org"
    = gethostbyname active_down_env "example.org"
  /\ GreencheckIp_objects active_env = GreencheckIp_objects active_down_env
  /\ GreencheckASN_objects active_env = GreencheckASN_objects active_down_env
  /\ fst (check_domain active_env 1600000000 "example.org" [])
     = Returned (green_sitecheck_by_asn 1600000000 "example.org"
                   (ipv4 93 184 216 34) active_asn)
  /\ fst (check_domain active_down_env 1600000001 "example.org" [])
     = Returned (grey_sitecheck 1600000001 "example.org"
                   (ipv4 93 184 216 34))
  /\ ~ same_but_checked_at
         (green_sitecheck_by_asn 1600000000 "example.org"
            (ipv4 93 184 216 34) active_asn)
         (grey_sitecheck 1600000001 "example.org" (ipv4 93 184 216 34)).
Proof.
  repeat split; try by vm_compute.
  intros (_ & _ & Hdata & _). discriminate Hdata.
Qed.

(** C5, amended: two calls of [check_domain] for the same host, at any two
    times and with any two states of the log, in two states of the world
    that agree on the resolution of the host, on the two registries and,
    when no registered range holds the address, on the answer of the
    look-up service for the address, either both return, and then the two
    site checks agree on every field but [checked_at], which holds the time
    of each call, or both raise the same exception. *)
Theorem check_domain_idempotent
    (env1 env2 : Env) (domain : string) (now1 now2 : Z) (log1 log2 : Log) :
  gethostbyname env1 domain = gethostbyname env2 domain ->
  GreencheckIp_objects env1 = GreencheckIp_objects env2 ->
  GreencheckASN_objects env1 = GreencheckASN_objects env2 ->
  (forall ip, gethostbyname env1 domain = Returned ip ->
              check_for_matching_ip_ranges env1 ip = None ->
              ipasn_lookup env1 ip = ipasn_lookup env2 ip) ->
  match fst (check_domain env1 now1 domain log1),
        fst (check_domain env2 now2 domain log2) with
  | Returned res1, Returned res2 =>
      same_but_checked_at res1 res2
      /\ SiteCheck.checked_at res1 = now1
      /\ SiteCheck.checked_at res2 = now2
  | Raised err1, Raised err2 => err1 = err2
  | _, _ => False
  end.
Proof.
  intros Hr Hip Hasn Hl. rewrite !check_domain_unfold. rewrite <- Hr.
  destruct (gethostbyname env1 domain) as [ip|err] eqn:Hr1; [|done].
  assert (check_for_matching_ip_ranges env2 ip
          = check_for_matching_ip_ranges env1 ip) as ->
    by (unfold check_for_matching_ip_ranges, ip_matches; by rewrite Hip).
  destruct (check_for_matching_ip_ranges env1 ip) as [r|] eqn:Hm.
  - simpl. unfold same_but_checked_at. by repeat split.
  - pose proof (check_for_matching_asn_ext env1 env2 ip log1 log2
                  (Hl ip eq_refl Hm) Hasn) as Ho.
    destruct (check_for_matching_asn env1 ip log1) as [o1 l1].
    destruct (check_for_matching_asn env2 ip log2) as [o2 l2].
    simpl in Ho. subst o2.
    destruct o1 as [[| |a]|err]; simpl; unfold same_but_checked_at;
      by repeat split.
Qed.

Lemma check_domain_idempotent_witness :
  same_but_checked_at
    (green_sitecheck_by_asn 1600000000 "example.org" (ipv4 93 184 216 34)
       active_asn)
    (green_sitecheck_by_asn 1600000060 "example.org" (ipv4 93 184 216 34)
       active_asn)
  /\ SiteCheck.checked_at
       (green_sitecheck_by_asn 1600000000 "example.org"
          (ipv4 93 184 216 34) active_asn) = 1600000000
  /\ SiteCheck.checked_at
       (green_sitecheck_by_asn 1600000060 "example.org"
          (ipv4 93 184 216 34) active_asn) = 1600000060.
Proof.
  apply (check_domain_idempotent active_env active_elsewhere_env
           "example.org" 1600000000 1600000060 []
           [OtherException "ASNLookupError"]).
  - reflexivity.
  - reflexivity.
  - reflexivity.
  - intros ip [= <-] _. reflexivity.
Defined.

(** C7: when [check_domain] returns a grey site check, the summary that
    [perform_full_lookup] returns is the grey result for the domain as the
    caller gave it; when it returns a green one, the summary is the
    projection of the site check. *)
Theorem perform_full_lookup_summary
    (env : Env) (now : Z) (domain : string) (log log' : Log)
    (res : SiteCheck.t) :
  check_domain env now domain log = (Returned res, log') ->
  (SiteCheck.green res = false ->
   perform_full_lookup env now domain log
     = (Returned (GreenDomain.grey_result domain), log')
   /\ GreenDomain.url (GreenDomain.grey_result domain) = domain)
  /\ (SiteCheck.green res = true ->
      perform_full_lookup env now domain log
        = (Returned (GreenDomain.from_sitecheck res), log')).
Proof.
  intros Hc. unfold perform_full_lookup, bind. rewrite Hc.
  apply check_domain_returned in Hc as (ip & _ & Hres).
  assert (SiteCheck.url res = domain) as Hurl
    by (destruct Hres as [[r ->]|[[a ->]| ->]]; done).
  split; intros ->; simpl; [|done]. by rewrite Hurl.
Qed.

Lemma perform_full_lookup_summary_witness :
  perform_full_lookup loopback_env 1600000000 "localhost" []
    = (Returned (GreenDomain.grey_result "localhost"), [])
  /\ perform_full_lookup overlapping_env 1600000000 "example.org" []
     = (Returned
          (GreenDomain.from_sitecheck
             (green_sitecheck_by_ip_range 1600000000 "example.org"
                (ipv4 10 0 0 5) wide_range)), []).
Proof.
  split.
  - destruct (perform_full_lookup_summary loopback_env 1600000000
                "localhost" [] []
                (grey_sitecheck 1600000000 "localhost" (ipv4 127 0 0 1)))
      as [Hgrey _]; [reflexivity|].
    destruct Hgrey as [Hrun _]; [reflexivity | exact Hrun].
  - destruct (perform_full_lookup_summary overlapping_env 1600000000
                "example.org" [] []
                (green_sitecheck_by_ip_range 1600000000 "example.org"
                   (ipv4 10 0 0 5) wide_range))
      as [_ Hgreen]; [reflexivity|].
    apply Hgreen. reflexivity.
Defined.

(** C10: a site check returned by [check_domain] has [green] equal to
    [data], is not cached, carries the domain as given and the text of the
    address that the domain resolves to, and is stamped with the time of the
    check; a green one names a provider and a kind of match, a grey one
    names neither. *)
Theorem check_domain_result_invariants
    (env : Env) (now : Z) (domain : string) (log log' : Log)
    (res : SiteCheck.t) :
  check_domain env now domain log = (Returned res, log') ->
  SiteCheck.green res = SiteCheck.data res
  /\ SiteCheck.cached res = false
  /\ SiteCheck.url res = domain
  /\ (exists ip, gethostbyname env domain = Returned ip
                 /\ SiteCheck.ip res = str ip)
  /\ SiteCheck.checked_at res = now
  /\ (SiteCheck.green res = true ->
      is_Some (SiteCheck.hosting_provider_id res)
      /\ is_Some (SiteCheck.match_type res)
      /\ is_Some (SiteCheck.match_ip_range res))
  /\ (SiteCheck.green res = false ->
      SiteCheck.hosting_provider_id res = None
      /\ SiteCheck.match_type res = None
      /\ SiteCheck.match_ip_range res = None).
Proof.
  intros Hc. apply check_domain_returned in Hc as (ip & Hr & Hres).
  assert (exists ip', gethostbyname env domain = Returned ip'
                       /\ str ip = str ip') as Hip by by exists ip.
  destruct Hres as [[r ->]|[[a ->]| ->]]; simpl;
    repeat split; intros; try done; eauto.
Qed.

Lemma check_domain_result_invariants_witness :
  SiteCheck.green
    (green_sitecheck_by_asn 1600000000 "example.org" (ipv4 93 184 216 34)
       active_asn)
    = true
  /\ SiteCheck.ip
       (green_sitecheck_by_asn 1600000000 "example.org" (ipv4 93 184 216 34)
          active_asn)
     = "93.184.216.34"
  /\ SiteCheck.url
       (green_sitecheck_by_asn 1600000000 "example.org" (ipv4 93 184 216 34)
          active_asn)
     = "example.org".
Proof.
  destruct (check_domain_result_invariants active_env 1600000000
              "example.org" [] []
              (green_sitecheck_by_asn 1600000000 "example.org"
                 (ipv4 93 184 216 34) active_asn))
    as (Hg & _ & Hu & _); [reflexivity|].
  split; [reflexivity|]. split; [by vm_compute | exact Hu].
Defined.

(** ** Splitting a batch into green and grey *)

Lemma contains_elem_of (xs : list string) (x : string) :
  contains xs x = true <-> x ∈ xs.
Proof.
  induction xs as [|y ys IH]; simpl.
  - split; [done|]. by intros ?%not_elem_of_nil.
  - rewrite elem_of_cons. destruct (String.eqb x y) eqn:E.
    + apply String.eqb_eq in E. split; intros; [by left | done].
    + apply String.eqb_neq in E. rewrite IH.
      split; [by right | by intros [?|?]].
Qed.

(** C8: [grey_urls_only] keeps, in their order and as often as they occur,
    the requested hosts that are not the [url] of a known green summary,
    where two strings are the same only when they are equal character by
    character; so for the hosts a.com and b.com and one green summary for
    a.com it returns b.com alone. *)
Theorem grey_urls_only_spec :
  (forall (urls_list : list string) (queryset : list GreenDomain.t),
     grey_urls_only urls_list queryset
       = filter (fun url => url ∉ map GreenDomain.url queryset) urls_list)
  /\ (forall (green : bool) (hosted_by_id : option Z),
        grey_urls_only ["a.com"; "b.com"]
          [{| GreenDomain.url := "a.com"; GreenDomain.green := green;
              GreenDomain.hosted_by_id := hosted_by_id |}]
        = ["b.com"]).
Proof.
  split; [|done].
  intros urls_list queryset. unfold grey_urls_only.
  induction urls_list as [|url urls IH]; [done|].
  rewrite filter_cons.
  destruct (contains (map GreenDomain.url queryset) url) eqn:E; simpl.
  - apply contains_elem_of in E. rewrite decide_False; [done | by intros []].
  - rewrite decide_True, IH; [done|].
    intros Hin%contains_elem_of. congruence.
Qed.

Example grey_urls_only_no_normalization :
  grey_urls_only ["A.com"; "a.com."; "b.com"; "A.com"]
    [GreenDomain.grey_result "a.com"; GreenDomain.grey_result "b.com"]
  = ["A.com"; "a.com."; "A.com"].
Proof. reflexivity. Qed.

Lemma fold_left_snoc {A B} (f : A -> B) (l : list A) (acc : list B) :
  fold_left (fun acc x => acc ++ [f x]) l acc = acc ++ map f l.
Proof.
  revert acc. induction l as [|x l IH]; intros acc; simpl.
  - by rewrite app_nil_r.
  - by rewrite IH, <- app_assoc.
Qed.

(** C9: [build_green_greylist] returns the green summaries in their order,
    followed by the grey result of each grey host in the order of the hosts;
    with no grey host and one green summary it returns that summary alone,
    and with the one grey host x.com and no green summary it returns the
    grey result for x.com alone. *)
Theorem build_green_greylist_spec :
  (forall (grey_list : list string) (green_list : list GreenDomain.t),
     build_green_greylist grey_list green_list
       = green_list ++ map GreenDomain.grey_result grey_list)
  /\ (forall g : GreenDomain.t, build_green_greylist [] [g] = [g])
  /\ build_green_greylist ["x.com"] [] = [GreenDomain.grey_result "x.com"].
Proof.
  split; [|done].
  intros grey_list green_list. unfold build_green_greylist.
  by rewrite fold_left_snoc.
Qed.

(** * Further properties of the checker *)

(** ** The look-up in the IP ranges *)

(** X1: [check_for_matching_ip_ranges] returns a range exactly when that
    range is the first one of the table, in its order, that holds the
    address. *)
Theorem check_for_matching_ip_ranges_first_iff
    (env : Env) (ip : IPv4Address) (r : GreencheckIp.t) :
  check_for_matching_ip_ranges env ip = Some r <->
  exists l1 l2, GreencheckIp_objects env = l1 ++ r :: l2
                /\ contains_ip r ip
                /\ Forall (fun r' => ~ contains_ip r' ip) l1.
Proof.
  split.
  - intros H.
    destruct (check_for_matching_ip_ranges_first env ip r H)
      as (l1 & l2 & Hl & Hno).
    destruct (check_for_matching_ip_ranges_sound env ip r H) as [Hc _].
    by exists l1, l2.
  - intros (l1 & l2 & Hl & Hc & Hno).
    unfold check_for_matching_ip_ranges, first, ip_matches. rewrite Hl.
    clear Hl. induction Hno as [|r' l1 Hr' _ IH]; simpl.
    + rewrite filter_cons_True; [done|]. unfold contains_ip in Hc. lia.
    + rewrite filter_cons_False; [done|]. unfold contains_ip in Hr'. lia.
Qed.

Lemma check_for_matching_ip_ranges_unique_witness :
  check_for_matching_ip_ranges loopback_env (ipv4 10 0 0 5)
    = Some narrow_range.
Proof.
  apply (check_for_matching_ip_ranges_unique loopback_env (ipv4 10 0 0 5)
           narrow_range).
  - left.
  - split; by vm_compute.
  - intros r' Hr' _. by apply list_elem_of_singleton in Hr'.
Defined.

(** X3: a range is found exactly when some registered range holds the
    address. *)
Theorem check_for_matching_ip_ranges_is_Some
    (env : Env) (ip : IPv4Address) :
  is_Some (check_for_matching_ip_ranges env ip) <->
  exists r, r ∈ GreencheckIp_objects env /\ contains_ip r ip.
Proof.
  split.
  - intros [r Hr].
    destruct (check_for_matching_ip_ranges_sound env ip r Hr) as [Hc Hin].
    by exists r.
  - intros (r & Hin & Hc).
    destruct (check_for_matching_ip_ranges env ip) as [r'|] eqn:E; [by eexists|].
    rewrite check_for_matching_ip_ranges_None in E. by destruct (E r Hin).
Qed.

(** X4: ranges registered later do not change the range found for an
    address that has one, whatever their size. *)
Theorem check_for_matching_ip_ranges_register_later
    (env : Env) (extra : list GreencheckIp.t) (ip : IPv4Address)
    (r : GreencheckIp.t) :
  check_for_matching_ip_ranges env ip = Some r ->
  check_for_matching_ip_ranges (register_ranges extra env) ip = Some r.
Proof.
  unfold check_for_matching_ip_ranges, first, ip_matches. simpl.
  rewrite filter_app. intros H.
  destruct (filter _ (GreencheckIp_objects env)) as [|r' l]; [done|].
  exact H.
Qed.

Lemma check_for_matching_ip_ranges_register_later_witness :
  check_for_matching_ip_ranges
    (register_ranges [narrow_range] (register_ranges [wide_range] loopback_env))
    (ipv4 10 0 0 5)
  = Some narrow_range.
Proof.
  apply (check_for_matching_ip_ranges_register_later
           (register_ranges [wide_range] loopback_env) [narrow_range]
           (ipv4 10 0 0 5) narrow_range).
  reflexivity.
Defined.

(** X5: both bounds of a registered range belong to it: when the bounds are
    in order, a range is found for the first and for the last address of
    every registered range; a row whose bounds are out of order is never
    returned. *)
Theorem check_for_matching_ip_ranges_bounds
    (env : Env) (r : GreencheckIp.t) :
  r ∈ GreencheckIp_objects env ->
  (GreencheckIp.ip_start r <= GreencheckIp.ip_end r ->
   is_Some (check_for_matching_ip_ranges env (GreencheckIp.ip_start r))
   /\ is_Some (check_for_matching_ip_ranges env (GreencheckIp.ip_end r)))
  /\ (GreencheckIp.ip_end r < GreencheckIp.ip_start r ->
      forall ip, check_for_matching_ip_ranges env ip <> Some r).
Proof.
  intros Hin. split.
  - intros Hle. split.
    + destruct (check_for_matching_ip_ranges env (GreencheckIp.ip_start r))
        as [r'|] eqn:E; [by eexists|].
      rewrite check_for_matching_ip_ranges_None in E.
      destruct (E r Hin). unfold contains_ip. lia.
    + destruct (check_for_matching_ip_ranges env (GreencheckIp.ip_end r))
        as [r'|] eqn:E; [by eexists|].
      rewrite check_for_matching_ip_ranges_None in E.
      destruct (E r Hin). unfold contains_ip. lia.
  - intros Hlt ip H.
    destruct (check_for_matching_ip_ranges_sound env ip r H) as [Hc _].
    unfold contains_ip in Hc. lia.
Qed.

Lemma check_for_matching_ip_ranges_bounds_witness :
  is_Some (check_for_matching_ip_ranges overlapping_env (ipv4 10 0 0 0))
  /\ is_Some (check_for_matching_ip_ranges overlapping_env (ipv4 10 0 0 255)).
Proof.
  destruct (check_for_matching_ip_ranges_bounds overlapping_env narrow_range)
    as [Hin _]; [right; left|].
  apply Hin. by vm_compute.
Defined.

(** ** The look-up in the autonomous system numbers *)

Lemma head_filter_Some_iff {A} (P : A -> Prop) `{!forall x, Decision (P x)}
    (l : list A) (x : A) :
  head (filter P l) = Some x <->
  exists l1 l2, l = l1 ++ x :: l2 /\ P x /\ Forall (fun y => ~ P y) l1.
Proof.
  split.
  - intros Hhd. assert (x ∈ filter P l) as Hin by by apply head_Some_elem_of.
    apply list_elem_of_filter in Hin as [Hx _].
    apply head_filter_Some in Hhd as (l1 & l2 & Hl & Hno). by exists l1, l2.
  - intros (l1 & l2 & -> & Hx & Hno).
    induction Hno as [|y l1 Hy _ IH]; simpl.
    + by rewrite filter_cons_True.
    + by rewrite filter_cons_False.
Qed.

Lemma filter_nil_iff {A} (P : A -> Prop) `{!forall x, Decision (P x)}
    (l : list A) :
  filter P l = [] <-> Forall (fun y => ~ P y) l.
Proof.
  induction l as [|y l IH]; [by split; [constructor|]|].
  rewrite filter_cons. destruct (decide (P y)) as [Hy|Hy].
  - split; [done|]. intros Hf. by inversion Hf.
  - rewrite IH. split; [by constructor|]. intros Hf. by inversion Hf.
Qed.

(** The loop over the candidates never returns [False]. *)
Lemma first_green_asn_not_False env asns log :
  fst (first_green_asn env asns log) <> Returned PyFalse.
Proof.
  induction asns as [|c asns IH]; simpl; [done|].
  destruct (int c) as [n|]; [|done].
  by destruct (asn_filter env n).
Qed.

(** The loop raises exactly when it meets a candidate that is no integer
    literal before it meets a registered number. *)
Lemma first_green_asn_raises env asns log err :
  fst (first_green_asn env asns log) = Raised err <->
  err = ValueError
  /\ exists pre c post, asns = pre ++ c :: post
     /\ (forall c', c' ∈ pre ->
           exists m, int c' = Some m /\ asn_filter env m = [])
     /\ int c = None.
Proof.
  induction asns as [|c asns IH]; simpl.
  - split; [done|]. intros (_ & pre & c & post & H & _).
    by destruct pre.
  - destruct (int c) as [n|] eqn:Hc.
    + destruct (asn_filter env n) as [|e l] eqn:E.
      * rewrite IH. split.
        -- intros (-> & pre & c' & post & -> & Hpre & Hc').
           split; [done|]. exists (c :: pre), c', post.
           split; [done|]. split; [|done].
           intros c1 [->|Hc1]%elem_of_cons; eauto.
        -- intros (-> & pre & c' & post & Heq & Hpre & Hc').
           split; [done|]. destruct pre as [|c0 pre]; simpl in Heq.
           ++ injection Heq as <- _. congruence.
           ++ injection Heq as <- ->. exists pre, c', post.
              split; [done|]. split; [|done].
              intros c1 Hc1. apply Hpre. by right.
      * simpl. split; [done|].
        intros (_ & pre & c' & post & Heq & Hpre & Hc').
        destruct pre as [|c0 pre]; simpl in Heq.
        -- injection Heq as <- _. congruence.
        -- injection Heq as <- _.
           destruct (Hpre c) as (m & Hm & Hnil); [left|]. congruence.
    + simpl. split.
      * intros [= <-]. split; [done|]. exists [], c, asns. split; [done|].
        split; [|done]. by intros c' ?%not_elem_of_nil.
      * by intros (-> & _).
Qed.

(** X6: [check_for_matching_asn] returns [False] exactly when the look-up
    service raised; when the service answered and no number matched, it
    returns [None]. *)
Theorem check_for_matching_asn_False_iff
    (env : Env) (ip : IPv4Address) (log : Log) :
  fst (check_for_matching_asn env ip log) = Returned PyFalse <->
  exists err, ipasn_lookup env ip = Raised err.
Proof.
  destruct (ipasn_lookup env ip) as [[n|s]|err] eqn:Hl.
  - rewrite (check_for_matching_asn_int env ip n) by done. simpl.
    split; [by destruct (first (asn_filter env n))|by intros [? ?]].
  - rewrite (check_for_matching_asn_str env ip s) by done.
    split; [|by intros [? ?]].
    intros H. by destruct (first_green_asn_not_False env (split " " s) log).
  - rewrite (check_for_matching_asn_lookup_raises env ip err) by done.
    split; [by exists err|done].
Qed.

(** X7: for answers of ASCII characters, the only exception that leaves
    [check_for_matching_asn] is the [ValueError] of the registry query, and
    it leaves exactly when the service answered with a string of which a
    field is no integer literal, the fields before it being literals of
    numbers that are not registered. *)
Theorem check_for_matching_asn_raises_iff
    (env : Env) (ip : IPv4Address) (log : Log) (err : exn) :
  (forall s, ipasn_lookup env ip = Returned (AsnStr s) -> ascii_answer s) ->
  fst (check_for_matching_asn env ip log) = Raised err <->
  err = ValueError
  /\ exists s pre c post,
       ipasn_lookup env ip = Returned (AsnStr s)
       /\ split " " s = pre ++ c :: post
       /\ (forall c', c' ∈ pre ->
             exists m, int c' = Some m /\ asn_filter env m = [])
       /\ int c = None.
Proof.
  intros _. destruct (ipasn_lookup env ip) as [[n|s]|e] eqn:Hl.
  - rewrite (check_for_matching_asn_int env ip n) by done. simpl.
    split; [done|]. by intros (_ & s & pre & c & post & ? & _).
  - rewrite (check_for_matching_asn_str env ip s) by done.
    rewrite first_green_asn_raises. split.
    + intros (-> & pre & c & post & Hs & Hpre & Hc).
      split; [done|]. by exists s, pre, c, post.
    + intros (-> & s' & pre & c & post & [= <-] & Hs & Hpre & Hc).
      split; [done|]. by exists pre, c, post.
  - rewrite (check_for_matching_asn_lookup_raises env ip e) by done. simpl.
    split; [done|]. by intros (_ & s & pre & c & post & ? & _).
Qed.

Lemma check_for_matching_asn_raises_iff_witness :
  fst (check_for_matching_asn (multi_asn_env "1111 x 2222")
         (ipv4 93 184 216 34) []) = Raised ValueError.
Proof.
  apply (check_for_matching_asn_raises_iff (multi_asn_env "1111 x 2222")
           (ipv4 93 184 216 34) [] ValueError).
  - intros s [= <-].
    split; [apply (bool_decide_unpack _); by vm_compute | simpl; lia].
  - split; [reflexivity|]. exists "1111 x 2222", ["1111"], "x", ["2222"].
    split; [reflexivity|]. split; [reflexivity|]. split; [|reflexivity].
    intros c' Hc'. apply list_elem_of_singleton in Hc' as ->.
    exists 1111. split; reflexivity.
Defined.

(** X8: what [check_for_matching_asn] adds to the log is the exception of
    the look-up service, unless it is [IPDefinedError]; it logs nothing
    when the service answers, also when the registry query then raises. *)
Theorem check_for_matching_asn_log
    (env : Env) (ip : IPv4Address) (log : Log) :
  snd (check_for_matching_asn env ip log)
    = log ++ logged_for (ipasn_lookup env ip).
Proof.
  destruct (ipasn_lookup env ip) as [[n|s]|err] eqn:Hl; simpl.
  - rewrite (check_for_matching_asn_int env ip n) by done.
    by rewrite app_nil_r.
  - rewrite (check_for_matching_asn_str env ip s) by done.
    rewrite first_green_asn_log. by rewrite app_nil_r.
  - rewrite (check_for_matching_asn_lookup_raises env ip err) by done.
    simpl. destruct (decide (err = IPDefinedError)); [|done].
    by rewrite app_nil_r.
Qed.

Lemma split_no_space (s : string) : no_space s -> split " " s = [s].
Proof.
  unfold no_space. induction s as [|c s IH]; simpl; [done|].
  intros [Hc Hs]%not_elem_of_cons.
  rewrite decide_False by done. by rewrite IH.
Qed.

(** X9: a string answer, of ASCII characters, that holds one integer
    literal and no space is treated as the integer answer of that number
    is: with the same registry, the two checks end alike. *)
Theorem check_for_matching_asn_text_number
    (env env' : Env) (ip : IPv4Address) (s : string) (n : Z) (log : Log) :
  GreencheckASN_objects env' = GreencheckASN_objects env ->
  ipasn_lookup env ip = Returned (AsnStr s) ->
  ipasn_lookup env' ip = Returned (AsnInt n) ->
  ascii_answer s ->
  no_space s ->
  int s = Some n ->
  check_for_matching_asn env ip log = check_for_matching_asn env' ip log.
Proof.
  intros Ht Hs Hn _ Hsp Hi.
  rewrite (check_for_matching_asn_str env ip s) by done.
  rewrite (check_for_matching_asn_int env' ip n) by done.
  rewrite split_no_space by done. simpl. rewrite Hi.
  unfold asn_filter. rewrite Ht.
  by destruct (filter _ (GreencheckASN_objects env)).
Qed.

Lemma check_for_matching_asn_text_number_witness :
  check_for_matching_asn text_asn_env (ipv4 93 184 216 34) []
    = check_for_matching_asn int_asn_env (ipv4 93 184 216 34) [].
Proof.
  apply (check_for_matching_asn_text_number text_asn_env int_asn_env
           (ipv4 93 184 216 34) "12345" 12345 []).
  - reflexivity.
  - reflexivity.
  - reflexivity.
  - split; [apply (bool_decide_unpack _); by vm_compute | simpl; lia].
  - apply (bool_decide_unpack _). by vm_compute.
  - reflexivity.
Defined.

(** X10: for an integer answer, the row returned is the first row of the
    table registered for that number, so that of two rows with the same
    number the later one is never returned; [None] is returned exactly when
    no row is registered for the number. *)
Theorem check_for_matching_asn_int_first
    (env : Env) (ip : IPv4Address) (n : Z) (log : Log) :
  ipasn_lookup env ip = Returned (AsnInt n) ->
  (forall e,
     check_for_matching_asn env ip log = (Returned (PyObj e), log) <->
     exists l1 l2, GreencheckASN_objects env = l1 ++ e :: l2
                   /\ GreencheckASN.asn e = n
                   /\ Forall (fun e' => GreencheckASN.asn e' <> n) l1)
  /\ (check_for_matching_asn env ip log = (Returned PyNone, log) <->
      Forall (fun e' => GreencheckASN.asn e' <> n) (GreencheckASN_objects env)).
Proof.
  intros Hl. rewrite (check_for_matching_asn_int env ip n) by done.
  unfold first, asn_filter. split.
  - intros e. etrans; [|exact (head_filter_Some_iff
      (fun e' => GreencheckASN.asn e' = n) (GreencheckASN_objects env) e)].
    destruct (head (filter _ (GreencheckASN_objects env))) as [e'|]; simpl.
    + split; [by intros [= ->]|by intros [= ->]].
    + split; done.
  - etrans; [|exact (filter_nil_iff
      (fun e' => GreencheckASN.asn e' = n) (GreencheckASN_objects env))].
    destruct (filter _ (GreencheckASN_objects env)) as [|e' l]; simpl.
    + split; done.
    + split; done.
Qed.

Lemma check_for_matching_asn_int_first_witness :
  check_for_matching_asn int_asn_env (ipv4 93 184 216 34) []
    = (Returned (PyObj active_asn), []).
Proof.
  destruct (check_for_matching_asn_int_first int_asn_env (ipv4 93 184 216 34)
              12345 []) as [Hfirst _]; [reflexivity|].
  apply Hfirst. exists [], [second_asn].
  split; [reflexivity|]. split; [reflexivity|]. constructor.
Defined.

(** ** The check of a domain *)

(** When the loop ends with [None], every candidate was the literal of a
    number that is not registered. *)
Lemma first_green_asn_None env asns log log' :
  first_green_asn env asns log = (Returned PyNone, log') ->
  forall c, c ∈ asns -> exists m, int c = Some m /\ asn_filter env m = [].
Proof.
  induction asns as [|c asns IH]; simpl.
  - by intros _ c ?%not_elem_of_nil.
  - destruct (int c) as [n|] eqn:Hc; [|done].
    destruct (asn_filter env n) as [|e l] eqn:E; [|done].
    intros H c' [->|Hc']%elem_of_cons; [by exists n|by apply IH].
Qed.

(** X11: the IP ranges come first: when a registered range holds the
    address, [check_domain] returns the green site check of the range found
    and leaves the log alone, whatever the look-up service and the table of
    numbers are. *)
Theorem check_domain_range_first
    (env env' : Env) (now : Z) (domain : string) (log : Log)
    (ip : IPv4Address) (r : GreencheckIp.t) :
  gethostbyname env domain = Returned ip ->
  gethostbyname env' domain = Returned ip ->
  GreencheckIp_objects env' = GreencheckIp_objects env ->
  check_for_matching_ip_ranges env ip = Some r ->
  check_domain env now domain log
    = (Returned (green_sitecheck_by_ip_range now domain ip r), log)
  /\ check_domain env' now domain log = check_domain env now domain log.
Proof.
  intros Hr Hr' Ht Hm.
  assert (check_for_matching_ip_ranges env' ip = Some r) as Hm'.
  { unfold check_for_matching_ip_ranges, ip_matches in *. by rewrite Ht. }
  rewrite !check_domain_unfold. by rewrite Hr, Hr', Hm, Hm'.
Qed.

Lemma check_domain_range_first_witness :
  check_domain overlapping_down_env 1600000000 "example.org" []
    = check_domain overlapping_env 1600000000 "example.org" [].
Proof.
  destruct (check_domain_range_first overlapping_env overlapping_down_env
              1600000000 "example.org" [] (ipv4 10 0 0 5) wide_range)
    as [_ Heq]; [reflexivity | reflexivity | reflexivity | reflexivity |].
  exact Heq.
Defined.

(** X12: a green site check names a registered row: either a registered
    range that holds the address, with the kind of match ["ip"], or, no
    range holding the address, a registered number that the look-up service
    reported, with the kind of match ["as"]; the site check carries the
    identifier of the row and of its provider. *)
Theorem check_domain_green_sound
    (env : Env) (now : Z) (domain : string) (log log' : Log)
    (res : SiteCheck.t) :
  check_domain env now domain log = (Returned res, log') ->
  SiteCheck.green res = true ->
  exists ip, gethostbyname env domain = Returned ip
  /\ ((exists r, r ∈ GreencheckIp_objects env /\ contains_ip r ip
         /\ SiteCheck.match_type res = Some "ip"
         /\ SiteCheck.match_ip_range res = Some (GreencheckIp.id r)
         /\ SiteCheck.hosting_provider_id res
            = Some (Hostingprovider.id (GreencheckIp.hostingprovider r)))
      \/ (exists e, (forall r, r ∈ GreencheckIp_objects env ->
                       ~ contains_ip r ip)
            /\ e ∈ GreencheckASN_objects env
            /\ reported env ip (GreencheckASN.asn e)
            /\ SiteCheck.match_type res = Some "as"
            /\ SiteCheck.match_ip_range res = Some (GreencheckASN.id e)
            /\ SiteCheck.hosting_provider_id res
               = Some (Hostingprovider.id
                         (GreencheckASN.hostingprovider e)))).
Proof.
  rewrite check_domain_unfold.
  destruct (gethostbyname env domain) as [ip|err]; [|done].
  intros H Hg. exists ip. split; [done|].
  destruct (check_for_matching_ip_ranges env ip) as [r|] eqn:Hm.
  - left. exists r. injection H as <- <-.
    destruct (check_for_matching_ip_ranges_sound env ip r Hm) as [Hc Hin].
    split; [done|]. split; [done|]. by repeat split.
  - right. rewrite check_for_matching_ip_ranges_None in Hm.
    destruct (check_for_matching_asn env ip log) as [[[| |e]|err] l] eqn:Ha;
      simplify_eq/=.
    destruct (check_for_matching_asn_sound env ip log e log' Ha)
      as (_ & Hin & Hrep).
    exists e. split; [done|]. split; [done|]. split; [done|].
    by repeat split.
Qed.

Lemma check_domain_green_sound_witness :
  exists e, e ∈ GreencheckASN_objects int_asn_env
            /\ reported int_asn_env (ipv4 93 184 216 34) (GreencheckASN.asn e).
Proof.
  destruct (check_domain_green_sound int_asn_env 1600000000 "example.org"
              [] [] (green_sitecheck_by_asn 1600000000 "example.org"
                       (ipv4 93 184 216 34) active_asn))
    as (ip & Hip & [(r & _ & _ & Hmt & _)|(e & _ & Hin & Hrep & _)]);
    [reflexivity | reflexivity | discriminate Hmt |].
  injection Hip as <-. by exists e.
Defined.

(** X13: a grey site check means that nothing matched: no registered range
    holds the address, and no number that the look-up service reported is
    registered. *)
Theorem check_domain_grey_complete
    (env : Env) (now : Z) (domain : string) (log log' : Log)
    (res : SiteCheck.t) :
  check_domain env now domain log = (Returned res, log') ->
  SiteCheck.green res = false ->
  exists ip, gethostbyname env domain = Returned ip
  /\ res = grey_sitecheck now domain ip
  /\ (forall r, r ∈ GreencheckIp_objects env -> ~ contains_ip r ip)
  /\ (forall n e, reported env ip n -> e ∈ GreencheckASN_objects env ->
        GreencheckASN.asn e <> n).
Proof.
  rewrite check_domain_unfold.
  destruct (gethostbyname env domain) as [ip|err]; [|done].
  intros H Hg. exists ip. split; [done|].
  destruct (check_for_matching_ip_ranges env ip) as [r|] eqn:Hm.
  { injection H as <- <-. done. }
  rewrite check_for_matching_ip_ranges_None in Hm.
  assert (forall n e, reported env ip n -> e ∈ GreencheckASN_objects env ->
            GreencheckASN.asn e = n ->
            exists l, check_for_matching_asn env ip log
                      = (Returned (PyObj l), log) \/
                      fst (check_for_matching_asn env ip log)
                      = Raised ValueError) as Hmatch.
  { intros n e Hrep Hin Hn.
    assert (e ∈ asn_filter env n) as Hf by by apply elem_of_asn_filter.
    destruct Hrep as [Hl|(s & c & Hl & Hc & Hi)].
    - rewrite (check_for_matching_asn_int env ip n) by done.
      destruct (asn_filter env n) as [|e' l]; [by apply not_elem_of_nil in Hf|].
      exists e'. by left.
    - rewrite (check_for_matching_asn_str env ip s) by done.
      destruct (first_green_asn env (split " " s) log) as [[[| |e']|err] l]
        eqn:Hrun.
      + by destruct (first_green_asn_not_False env (split " " s) log);
          rewrite Hrun.
      + destruct (first_green_asn_None env _ _ _ Hrun c Hc) as (m & Hm' & Hnil).
        rewrite Hi in Hm'. injection Hm' as <-. rewrite Hnil in Hf.
        by apply not_elem_of_nil in Hf.
      + destruct (first_green_asn_sound env _ _ _ _ Hrun) as (-> & _).
        exists e'. by left.
      + assert (fst (first_green_asn env (split " " s) log) = Raised err)
          as Hr by by rewrite Hrun.
        apply first_green_asn_raises in Hr as [-> _].
        exists e. by right. }
  destruct (check_for_matching_asn env ip log) as [[[| |e]|err] l] eqn:Ha;
    simplify_eq/=.
  - split; [done|]. split; [done|]. intros n e Hrep Hin Hn.
    destruct (Hmatch n e Hrep Hin Hn) as [e' [?|?]]; done.
  - split; [done|]. split; [done|]. intros n e Hrep Hin Hn.
    destruct (Hmatch n e Hrep Hin Hn) as [e' [?|?]]; done.
Qed.

Lemma check_domain_grey_complete_witness :
  exists ip, gethostbyname loopback_env "localhost" = Returned ip
  /\ grey_sitecheck 1600000000 "localhost" (ipv4 127 0 0 1)
     = grey_sitecheck 1600000000 "localhost" ip
  /\ (forall r, r ∈ GreencheckIp_objects loopback_env -> ~ contains_ip r ip)
  /\ (forall n e, reported loopback_env ip n ->
        e ∈ GreencheckASN_objects loopback_env -> GreencheckASN.asn e <> n).
Proof.
  apply (check_domain_grey_complete loopback_env 1600000000 "localhost"
           [] [] (grey_sitecheck 1600000000 "localhost" (ipv4 127 0 0 1)));
    reflexivity.
Defined.

(** An exception leaves [check_for_matching_asn] only from the loop over
    the candidates of a string answer. *)
Lemma check_for_matching_asn_raises_str env ip log err :
  fst (check_for_matching_asn env ip log) = Raised err <->
  exists s, ipasn_lookup env ip = Returned (AsnStr s)
            /\ fst (first_green_asn env (split " " s) log) = Raised err.
Proof.
  destruct (ipasn_lookup env ip) as [[n|s]|e] eqn:Hl.
  - rewrite (check_for_matching_asn_int env ip n) by done. simpl.
    split; [done|]. by intros (s & ? & _).
  - rewrite (check_for_matching_asn_str env ip s) by done. split.
    + intros H. by exists s.
    + by intros (s' & [= <-] & H).
  - rewrite (check_for_matching_asn_lookup_raises env ip e) by done. simpl.
    split; [done|]. by intros (s & ? & _).
Qed.

(** X14: for answers of ASCII characters, [check_domain] raises exactly in
    two cases: the resolver raises,
    and the exception is the resolver's; or no registered range holds the
    address and the look-up service answers with a string of which a field
    is no integer literal, the fields before it being literals of numbers
    that are not registered, and the exception is [ValueError].
    [perform_full_lookup] raises exactly when [check_domain] does. *)
Theorem check_domain_raises_iff
    (env : Env) (now : Z) (domain : string) (log : Log) (err : exn) :
  (forall ip s, ipasn_lookup env ip = Returned (AsnStr s) -> ascii_answer s) ->
  (fst (check_domain env now domain log) = Raised err <->
   gethostbyname env domain = Raised err
   \/ (err = ValueError
       /\ exists ip s pre c post,
            gethostbyname env domain = Returned ip
            /\ check_for_matching_ip_ranges env ip = None
            /\ ipasn_lookup env ip = Returned (AsnStr s)
            /\ split " " s = pre ++ c :: post
            /\ (forall c', c' ∈ pre ->
                  exists m, int c' = Some m /\ asn_filter env m = [])
            /\ int c = None))
  /\ (fst (perform_full_lookup env now domain log) = Raised err <->
      fst (check_domain env now domain log) = Raised err).
Proof.
  intros _. split.
  - rewrite check_domain_unfold.
    destruct (gethostbyname env domain) as [ip|e]; simpl.
    2:{ split; [intros [= ->]; by left|]. intros [[= ->]|H]; [done|].
        by destruct H as (_ & ? & ? & ? & ? & ? & ? & _). }
    destruct (check_for_matching_ip_ranges env ip) as [r|] eqn:Hm; simpl.
    { split; [done|]. intros [?|H]; [done|].
      destruct H as (_ & ip' & s & pre & c & post & Hip & Hm' & _).
      injection Hip as <-. congruence. }
    assert (fst (match check_for_matching_asn env ip log with
                 | (Returned (PyObj a), log') =>
                     (Returned (green_sitecheck_by_asn now domain ip a), log')
                 | (Returned _, log') =>
                     (Returned (grey_sitecheck now domain ip), log')
                 | (Raised err0, log') => (Raised err0, log')
                 end) = Raised err
            <-> fst (check_for_matching_asn env ip log) = Raised err) as ->.
    { destruct (check_for_matching_asn env ip log) as [[[| |a]|e] l]; simpl;
        split; try done; by intros [= ->]. }
    rewrite check_for_matching_asn_raises_str. split.
    + intros (s & Hl & Hrun).
      apply first_green_asn_raises in Hrun
        as (-> & pre & c & post & Hs & Hpre & Hc).
      right. split; [done|]. by exists ip, s, pre, c, post.
    + intros [?|H]; [done|].
      destruct H as (-> & ip' & s & pre & c & post & Hip & _ & Hl & Hs
                     & Hpre & Hc).
      injection Hip as <-. exists s. split; [done|].
      apply first_green_asn_raises. split; [done|]. by exists pre, c, post.
  - unfold perform_full_lookup, bind.
    destruct (check_domain env now domain log) as [[res|e] l]; simpl.
    + destruct (negb (SiteCheck.green res)); unfold ret; simpl; split; done.
    + split; by intros [= ->].
Qed.

Lemma check_domain_raises_iff_witness :
  fst (check_domain (multi_asn_env "1111 x 2222") 1600000000 "example.org"
         []) = Raised ValueError
  /\ fst (perform_full_lookup (multi_asn_env "1111 x 2222") 1600000000
            "example.org" []) = Raised ValueError.
Proof.
  destruct (check_domain_raises_iff (multi_asn_env "1111 x 2222")
              1600000000 "example.org" [] ValueError) as [Hcd Hpfl].
  - intros ip s [= <-].
    split; [apply (bool_decide_unpack _); by vm_compute | simpl; lia].
  - assert (fst (check_domain (multi_asn_env "1111 x 2222") 1600000000
                   "example.org" []) = Raised ValueError) as Hraise.
    { apply Hcd. right. split; [reflexivity|].
      exists (ipv4 93 184 216 34), "1111 x 2222", ["1111"], "x", ["2222"].
      split; [reflexivity|]. split; [reflexivity|]. split; [reflexivity|].
      split; [reflexivity|]. split; [|reflexivity].
      intros c' Hc'. apply list_elem_of_singleton in Hc' as ->.
      exists 1111. split; reflexivity. }
    split; [exact Hraise | apply Hpfl; exact Hraise].
Defined.

(** X15: what [check_domain] adds to the log is settled by the resolution,
    the ranges and the look-up: it adds the exception of the look-up
    service, once and at the end, when the host resolves, no registered
    range holds the address and the look-up raises something other than
    [IPDefinedError], and the site check returned is then the grey one; in
    every other case the log is left as it was. *)
Theorem check_domain_log
    (env : Env) (now : Z) (domain : string) (log : Log) :
  snd (check_domain env now domain log)
    = log ++ match gethostbyname env domain with
             | Returned ip =>
                 match check_for_matching_ip_ranges env ip with
                 | None => logged_for (ipasn_lookup env ip)
                 | Some _ => []
                 end
             | Raised _ => []
             end
  /\ (forall ip err,
        gethostbyname env domain = Returned ip ->
        check_for_matching_ip_ranges env ip = None ->
        ipasn_lookup env ip = Raised err ->
        err <> IPDefinedError ->
        check_domain env now domain log
          = (Returned (grey_sitecheck now domain ip), log ++ [err])).
Proof.
  split.
  - rewrite check_domain_unfold.
    destruct (gethostbyname env domain) as [ip|e] eqn:Hr;
      [|by rewrite app_nil_r].
    destruct (check_for_matching_ip_ranges env ip) as [r|] eqn:Hm;
      [by rewrite app_nil_r|].
    destruct (ipasn_lookup env ip) as [[n|s]|e] eqn:Hl; simpl.
    + rewrite (check_for_matching_asn_int env ip n) by done.
      rewrite app_nil_r. by destruct (first (asn_filter env n)).
    + rewrite (check_for_matching_asn_str env ip s) by done.
      rewrite first_green_asn_log, app_nil_r.
      by destruct (fst (first_green_asn env (split " " s) [])) as [[| |a]|e].
    + rewrite (check_for_matching_asn_lookup_raises env ip e) by done.
      simpl. destruct (decide (e = IPDefinedError)); [|done].
      by rewrite app_nil_r.
  - intros ip err Hr Hm Hl Hne.
    rewrite check_domain_unfold, Hr, Hm.
    rewrite (check_for_matching_asn_lookup_raises env ip err) by done.
    by rewrite decide_False by done.
Qed.

Lemma check_domain_log_witness :
  check_domain service_down_env 1600000000 "example.org"
    [OtherException "HTTPLookupError"]
  = (Returned (grey_sitecheck 1600000000 "example.org" (ipv4 93 184 216 34)),
     [OtherException "HTTPLookupError"; OtherException "ASNLookupError"]).
Proof.
  destruct (check_domain_log service_down_env 1600000000 "example.org"
              [OtherException "HTTPLookupError"]) as [_ Hgrey].
  apply (Hgrey (ipv4 93 184 216 34) (OtherException "ASNLookupError"));
    [reflexivity | reflexivity | reflexivity | discriminate].
Defined.

(** X16: the [active] flags of the registered numbers have no part in the
    check of a domain: with the flags set in any other way, [check_domain]
    ends with the same site check or exception and the same log. *)
Theorem check_domain_ignores_active
    (env : Env) (f : GreencheckASN.t -> bool) (now : Z) (domain : string)
    (log : Log) :
  check_domain (reflag f env) now domain log = check_domain env now domain log.
Proof.
  rewrite !check_domain_unfold. simpl.
  destruct (gethostbyname env domain) as [ip|e]; [|done].
  change (check_for_matching_ip_ranges (reflag f env) ip)
    with (check_for_matching_ip_ranges env ip).
  destruct (check_for_matching_ip_ranges env ip) as [r|]; [done|].
  rewrite check_for_matching_asn_reflag.
  by destruct (check_for_matching_asn env ip log) as [[[| |a]|e] l].
Qed.

(** ** Batches of domains *)

Lemma grey_urls_only_filter (urls_list : list string)
    (queryset : list GreenDomain.t) :
  grey_urls_only urls_list queryset
    = filter (fun url => url ∉ map GreenDomain.url queryset) urls_list.
Proof.
  unfold grey_urls_only.
  induction urls_list as [|url urls IH]; [done|].
  rewrite filter_cons.
  destruct (contains (map GreenDomain.url queryset) url) eqn:E; simpl.
  - apply contains_elem_of in E. rewrite decide_False; [done | by intros []].
  - rewrite decide_True, IH; [done|].
    intros Hin%contains_elem_of. congruence.
Qed.

Lemma elem_of_grey_urls_only (urls_list : list string)
    (queryset : list GreenDomain.t) (url : string) :
  url ∈ grey_urls_only urls_list queryset <->
  url ∈ urls_list /\ url ∉ map GreenDomain.url queryset.
Proof.
  rewrite grey_urls_only_filter, list_elem_of_filter. tauto.
Qed.

Lemma filter_id_iff {A} (P : A -> Prop) `{!forall x, Decision (P x)}
    (l : list A) :
  filter P l = l <-> Forall P l.
Proof.
  induction l as [|x l IH]; [by split; [constructor|]|].
  rewrite filter_cons. destruct (decide (P x)) as [Hx|Hx].
  - split.
    + intros [= Hf]. constructor; [done|by apply IH].
    + intros Hall. inversion Hall as [|? ? _ Hl]; subst.
      f_equal. by apply IH.
  - split.
    + intros Hf. pose proof (length_filter P l) as Hlen.
      rewrite Hf in Hlen. simpl in Hlen. lia.
    + intros Hall. by inversion Hall.
Qed.

Lemma build_green_greylist_app (grey_list : list string)
    (green_list : list GreenDomain.t) :
  build_green_greylist grey_list green_list
    = green_list ++ map GreenDomain.grey_result grey_list.
Proof. unfold build_green_greylist. by rewrite fold_left_snoc. Qed.

(** X17: [grey_urls_only] returns the requested hosts unchanged exactly when
    none of them is the url of a known green summary, as when there is no
    green summary at all; it returns the empty list exactly when each of
    them is. *)
Theorem grey_urls_only_all_or_nothing
    (urls_list : list string) (queryset : list GreenDomain.t) :
  (grey_urls_only urls_list queryset = urls_list <->
   forall url, url ∈ urls_list -> url ∉ map GreenDomain.url queryset)
  /\ (grey_urls_only urls_list queryset = [] <->
      forall url, url ∈ urls_list -> url ∈ map GreenDomain.url queryset)
  /\ grey_urls_only urls_list [] = urls_list.
Proof.
  split; [|split].
  - rewrite grey_urls_only_filter, filter_id_iff. apply Forall_forall.
  - rewrite grey_urls_only_filter, filter_nil_iff, Forall_forall.
    split; intros H url Hin.
    + destruct (decide (url ∈ map GreenDomain.url queryset)) as [|Hn];
        [done|]. by destruct (H url Hin).
    + intros Hn. by apply Hn, H.
  - rewrite grey_urls_only_filter. apply filter_id_iff, Forall_forall.
    intros url _. simpl. apply not_elem_of_nil.
Qed.

(** X18: [grey_urls_only] may be applied in steps: the hosts that are grey
    for the summaries of two query sets together are those that are grey
    for the first and then grey for the second; a list of hosts may be cut
    in batches, whose results are put one after the other; and applying it
    again with the same summaries changes nothing. *)
Theorem grey_urls_only_steps
    (urls1 urls2 : list string) (queryset1 queryset2 : list GreenDomain.t) :
  grey_urls_only urls1 (queryset1 ++ queryset2)
    = grey_urls_only (grey_urls_only urls1 queryset1) queryset2
  /\ grey_urls_only (urls1 ++ urls2) queryset1
     = grey_urls_only urls1 queryset1 ++ grey_urls_only urls2 queryset1
  /\ grey_urls_only (grey_urls_only urls1 queryset1) queryset1
     = grey_urls_only urls1 queryset1.
Proof.
  rewrite !grey_urls_only_filter. split; [|split].
  - rewrite map_app. induction urls1 as [|url urls IH]; [done|].
    rewrite !filter_cons.
    destruct (decide (url ∉ map GreenDomain.url queryset1)) as [H1|H1].
    + rewrite filter_cons.
      destruct (decide (url ∉ map GreenDomain.url queryset2)) as [H2|H2].
      * rewrite decide_True, IH; [done|].
        by intros [?|?]%elem_of_app.
      * rewrite decide_False, IH; [done|].
        intros Hn. apply H2. intros Hin. apply Hn, elem_of_app. by right.
    + rewrite decide_False, IH; [done|].
      intros Hn. apply H1. intros Hin. apply Hn, elem_of_app. by left.
  - apply filter_app.
  - apply filter_id_iff, Forall_forall.
    by intros url [H _]%list_elem_of_filter.
Qed.

(** X19: only the set of the urls of the green summaries counts: two query
    sets with the same urls, in any order and any number of times, leave
    the same grey hosts. *)
Theorem grey_urls_only_same_urls
    (urls_list : list string) (queryset1 queryset2 : list GreenDomain.t) :
  (forall url, url ∈ map GreenDomain.url queryset1
               <-> url ∈ map GreenDomain.url queryset2) ->
  grey_urls_only urls_list queryset1 = grey_urls_only urls_list queryset2.
Proof.
  intros Hsame. rewrite !grey_urls_only_filter.
  induction urls_list as [|url urls IH]; [done|].
  rewrite !filter_cons, IH.
  destruct (decide (url ∉ map GreenDomain.url queryset1)) as [H1|H1].
  - rewrite decide_True; [done|]. by rewrite <- Hsame.
  - rewrite decide_False; [done|]. by rewrite <- Hsame.
Qed.

Lemma grey_urls_only_same_urls_witness :
  grey_urls_only ["a.com"; "b.com"; "c.com"]
    [green_summary "c.com"; green_summary "a.com"]
  = grey_urls_only ["a.com"; "b.com"; "c.com"]
      [green_summary "a.com"; green_summary "c.com";
       green_summary "a.com"].
Proof.
  apply (grey_urls_only_same_urls ["a.com"; "b.com"; "c.com"]
           [green_summary "c.com"; green_summary "a.com"]
           [green_summary "a.com"; green_summary "c.com";
            green_summary "a.com"]).
  intros url. simpl. rewrite !elem_of_cons. tauto.
Defined.

(** X20: the greylist built from the green summaries and from the hosts
    that [grey_urls_only] leaves names every requested host; and when no
    host is requested twice and no two green summaries share a url, no url
    is named twice. *)
Theorem build_green_greylist_covers
    (urls_list : list string) (queryset : list GreenDomain.t) :
  (forall url, url ∈ urls_list ->
     url ∈ map GreenDomain.url
             (build_green_greylist (grey_urls_only urls_list queryset)
                queryset))
  /\ (NoDup urls_list -> NoDup (map GreenDomain.url queryset) ->
      NoDup (map GreenDomain.url
               (build_green_greylist (grey_urls_only urls_list queryset)
                  queryset))).
Proof.
  rewrite build_green_greylist_app, map_app, map_map. simpl.
  rewrite map_id. split.
  - intros url Hin. apply elem_of_app.
    destruct (decide (url ∈ map GreenDomain.url queryset)) as [|Hn];
      [by left|].
    right. by apply elem_of_grey_urls_only.
  - intros Hu Hq. apply NoDup_app. split; [done|]. split.
    + by intros url Hin [_ Hn]%elem_of_grey_urls_only.
    + rewrite grey_urls_only_filter. by apply NoDup_filter.
Qed.

Lemma build_green_greylist_covers_witness :
  NoDup (map GreenDomain.url
           (build_green_greylist
              (grey_urls_only ["a.com"; "b.com"]
                 [green_summary "a.com"])
              [green_summary "a.com"])).
Proof.
  destruct (build_green_greylist_covers ["a.com"; "b.com"]
              [green_summary "a.com"]) as [_ Hnodup].
  apply Hnodup.
  - apply (bool_decide_unpack _). by vm_compute.
  - apply (bool_decide_unpack _). by vm_compute.
Defined.

(** ** The fields of a string answer *)

Lemma split_not_nil (sep : ascii) (s : string) : split sep s <> [].
Proof.
  destruct s as [|c s]; simpl; [done|].
  destruct (decide (c = sep)); [done|]. by destruct (split sep s).
Qed.

(** X21: [split(" ")] loses nothing: there is at least one field, no field
    holds a space, and the fields joined by spaces give the string back. *)
Theorem split_join (s : string) :
  join " " (split " " s) = s
  /\ Forall no_space (split " " s)
  /\ split " " s <> [].
Proof.
  split; [|split; [|apply split_not_nil]].
  - induction s as [|c s IH]; [done|]. simpl.
    pose proof (split_not_nil " " s) as Hne.
    destruct (decide (c = " "%char)) as [->|Hc].
    + simpl. destruct (split " " s) as [|f fs]; [done|]. by rewrite IH.
    + destruct (split " " s) as [|f fs]; [done|]. simpl in *.
      destruct fs as [|f' fs]; simpl in *; by rewrite <- IH.
  - induction s as [|c s IH]; simpl.
    + constructor; [|done]. unfold no_space. simpl. apply not_elem_of_nil.
    + destruct (decide (c = " "%char)) as [->|Hc].
      * constructor; [|done]. unfold no_space. simpl. apply not_elem_of_nil.
      * pose proof (split_not_nil " " s) as Hne.
        destruct (split " " s) as [|f fs]; [done|].
        inversion IH as [|? ? Hf Hfs]; subst. constructor; [|done].
        unfold no_space in *. simpl. apply not_elem_of_cons. split; [|done].
        congruence.
Qed.

(** X22: an answer that is the empty string or that begins with a space
    has an empty first field, which is no integer literal: the check raises
    [ValueError], whatever the rest of the answer and the registry are, and
    [check_domain] raises it too when no registered range holds the
    address. *)
Theorem check_for_matching_asn_empty_field
    (env : Env) (now : Z) (domain : string) (ip : IPv4Address) (s : string)
    (log : Log) :
  gethostbyname env domain = Returned ip ->
  ipasn_lookup env ip = Returned (AsnStr s) ->
  s = EmptyString \/ (exists rest, s = String " " rest) ->
  check_for_matching_asn env ip log = (Raised ValueError, log)
  /\ (check_for_matching_ip_ranges env ip = None ->
      check_domain env now domain log = (Raised ValueError, log)).
Proof.
  intros Hr Hl Hs.
  assert (check_for_matching_asn env ip log = (Raised ValueError, log)) as Ha.
  { rewrite (check_for_matching_asn_str env ip s) by done.
    by destruct Hs as [->|[rest ->]]. }
  split; [done|]. intros Hm.
  by rewrite check_domain_unfold, Hr, Hm, Ha.
Qed.

Lemma check_for_matching_asn_empty_field_witness :
  check_domain (multi_asn_env " 2222") 1600000000 "example.org" []
    = (Raised ValueError, []).
Proof.
  destruct (check_for_matching_asn_empty_field (multi_asn_env " 2222")
              1600000000 "example.org" (ipv4 93 184 216 34) " 2222" [])
    as [_ Hd]; [reflexivity | reflexivity | right; by exists "2222" |].
  apply Hd. reflexivity.
Defined.
